(** * Adversarial_learning: data generator, metric accumulator and models

    A shallow embedding of [Adversarial_learning/utils.py] and
    [Adversarial_learning/model.py].

    Conventions of the embedding:
    - Python exceptions are values of [exn]; a computation that may raise
      returns a [result].  A method that mutates [self] before it raises
      returns the mutated object next to the [result].
    - Numbers held in tensors and metric lists are rationals ([Q]); the
      rounding of IEEE floats is not part of the model.
    - A torch tensor is its shape together with its row-major contents.
    - [random.shuffle] and dropout take their random draws as an argument. *)

From Stdlib Require Import ZArith QArith Qabs Qround Qpower Lia Lqa String.
From stdpp Require Import base option list gmap strings.

Local Open Scope nat_scope.

(** ** Python runtime *)

Inductive exn : Set :=
| AssertionError
| IndexError
| ValueError
| RuntimeError.

Inductive result (A : Type) : Type :=
| Ok (a : A)
| Raise (e : exn).
Arguments Ok {A} a.
Arguments Raise {A} e.

#[global] Instance result_ret : MRet result := fun A a => Ok a.
#[global] Instance result_bind : MBind result := fun A B f m =>
  match m with
  | Ok a => f a
  | Raise e => Raise e
  end.

Module Py.

(** [assert c] *)
Definition assert (c : bool) : result unit :=
  if c then Ok tt else Raise AssertionError.

(** [l[i]] for an index that is a non-negative int. *)
Definition getitem {A} (l : list A) (i : nat) : result A :=
  match l !! i with
  | Some x => Ok x
  | None => Raise IndexError
  end.

(** [l[i]] for an arbitrary int: a negative index counts from the end. *)
Definition getitem_int {A} (l : list A) (i : Z) : result A :=
  let i' := if (i <? 0)%Z then (i + Z.of_nat (length l))%Z else i in
  if (i' <? 0)%Z then Raise IndexError else getitem l (Z.to_nat i').

(** [l[start:]] for an arbitrary int [start]: a negative start counts
    from the end, and the bound is clamped to [0 .. len(l)]. *)
Definition slice_from {A} (l : list A) (start : Z) : list A :=
  let len := Z.of_nat (length l) in
  let s := if (start <? 0)%Z then Z.max (start + len) 0 else Z.min start len in
  drop (Z.to_nat s) l.

(** [x < y] on numbers. *)
Definition lt (x y : Q) : bool :=
  (Qnum x * Zpos (Qden y) <? Qnum y * Zpos (Qden x))%Z.

(** The builtin [min(iterable)]: the first smallest item, [ValueError]
    when the iterable is empty. *)
Definition min (l : list Q) : result Q :=
  match l with
  | [] => Raise ValueError
  | x :: xs => Ok (fold_left (fun cur item => if lt item cur then item else cur) xs x)
  end.

(** Rounding of an exact number to the nearest integer, ties to even. *)
Definition round_half_even (q : Q) : Z :=
  let f := Qfloor q in
  let r := (q - inject_Z f)%Q in
  if lt r (1 # 2) then f
  else if lt (1 # 2) r then (f + 1)%Z
  else if Z.even f then f else (f + 1)%Z.

(** [round(q, 2)] *)
Definition round2 (q : Q) : Q :=
  (inject_Z (round_half_even (q * inject_Z 100)) / inject_Z 100)%Q.

(** A dict keeps its keys in insertion order; assigning to a key that is
    present replaces the value and keeps the key's position. *)
Fixpoint dict_set {V} (k : nat) (v : V) (d : list (nat * V)) : list (nat * V) :=
  match d with
  | [] => [(k, v)]
  | (k', v') :: d' =>
      if Nat.eqb k k' then (k, v) :: d' else (k', v') :: dict_set k v d'
  end.

Definition dict_values {V} (d : list (nat * V)) : list V := map snd d.

(** [{i: src[i] for i in keys}] *)
Fixpoint dict_comp {V} (src : list V) (keys : list nat) (d : list (nat * V))
  : result (list (nat * V)) :=
  match keys with
  | [] => Ok d
  | i :: keys' => v ← getitem src i; dict_comp src keys' (dict_set i v d)
  end.

(** [x[i], x[j] = x[j], x[i]] *)
Definition swap {A} (x : list A) (i j : nat) : list A :=
  match x !! j, x !! i with
  | Some xj, Some xi => <[j := xi]> (<[i := xj]> x)
  | _, _ => x
  end.

(** [random.shuffle(x)]: for i in reversed(range(1, len(x))), swap x[i]
    with x[j] for j = randbelow(i + 1).  [rnd i] is the raw draw of the
    iteration with loop variable [i]. *)
Fixpoint shuffle_loop {A} (rnd : nat -> nat) (i : nat) (x : list A) : list A :=
  match i with
  | 0 => x
  | S i' => shuffle_loop rnd i' (swap x i (rnd i mod (i + 1)))
  end.

Definition shuffle {A} (rnd : nat -> nat) (x : list A) : list A :=
  shuffle_loop rnd (length x - 1) x.

End Py.

(** ** Tensors *)

Module Torch.

Record Tensor : Type := mkTensor { shape : list nat; data : list Q }.

(** [torch.Tensor([v])] *)
Definition of_scalar_list (v : list Q) : Tensor :=
  {| shape := [length v]; data := v |}.

(** [torch.cat((x, y))] for one-dimensional operands; operands of
    another rank are refused with [RuntimeError]. *)
Definition cat (x y : Tensor) : result Tensor :=
  match shape x, shape y with
  | [a], [b] => Ok {| shape := [a + b]; data := data x ++ data y |}
  | _, _ => Raise RuntimeError
  end.

(** [x.unsqueeze(1)]: a size-one axis after the first one; a
    zero-dimensional tensor has no position 1. *)
Definition unsqueeze1 (x : Tensor) : result Tensor :=
  match shape x with
  | [] => Raise IndexError
  | d :: ds => Ok {| shape := d :: 1 :: ds; data := data x |}
  end.

(** [x.shape[0]] *)
Definition shape0 (x : Tensor) : result nat := Py.getitem (shape x) 0.

End Torch.

(** ** utils.py: [R_or_S] *)

Section R_or_S.

(** The type of the items of [MIC] and the value of [2 ** i] for an
    item [i], as the Python runtime computes it. *)
Variable num : Type.
Variable pow2 : num -> Q.

Definition R_or_S (MIC : list num) (boundary : Q) : list Z :=
  map (fun i => if Qle_bool (pow2 i) boundary then 0%Z else 1%Z) MIC.

End R_or_S.

(** [2 ** i] for an int [i]. *)
Definition pow2_int (i : Z) : Q := Qpower (2 # 1) i.

(** [breakpoints]: the resistance breakpoint of each antibiotic. *)
Definition breakpoints : list (string * Q) :=
  [ ("azm"%string, 1%Q); ("cfx"%string, 1 # 8); ("cip"%string, 6 # 100);
    ("cro"%string, 1 # 8) ].

(** ** utils.py: [DataGenerator] *)

Module DataGenerator.

Import Torch.

Record t : Type := mk {
  features : list Tensor;
  labels : list Q;
  n_nodes : nat;
  n_samples : nat;
  n : nat;
  _index : list nat;
  auto_reset_generator : bool;
  labels_2 : option (list Z)
}.

(** What [next_sample] yields: a pair, or a triple when [labels_2] is
    present. *)
Inductive sample : Type :=
| Pair (feature : Tensor) (label : Q)
| Triple (feature : Tensor) (label : Q) (label_2 : Z).

Definition set_n (v : nat) (self : t) : t :=
  {| features := features self; labels := labels self;
     n_nodes := n_nodes self; n_samples := n_samples self;
     n := v; _index := _index self;
     auto_reset_generator := auto_reset_generator self;
     labels_2 := labels_2 self |}.

(** One iteration of the loop of [_parse_features]. *)
Definition parse_feature (global_node : bool) (f : Tensor) : result Tensor :=
  if global_node then
    c ← cat f (of_scalar_list [1 # 2]);
    unsqueeze1 c
  else unsqueeze1 f.

(** [_parse_features]: slot [i] of the preallocated list [l] receives
    the parsed [features[i]], for [i] in increasing order. *)
Fixpoint _parse_features (features : list Tensor) (global_node : bool)
  : result (list Tensor) :=
  match features with
  | [] => Ok []
  | f :: rest =>
      li ← parse_feature global_node f;
      l ← _parse_features rest global_node;
      Ok (li :: l)
  end.

Definition __init__ (features : list Tensor) (labels : list Q)
    (labels_2 : option (list Z))
    (auto_reset_generator global_node pre_convolved : bool) : result t :=
  Py.assert (length features =? length labels);;
  self_features ←
    (if pre_convolved then Ok features
     else _parse_features features global_node);
  m ← Py.min (map Qabs labels);
  let self_labels := map (fun x => (x + m)%Q) labels in
  f0 ← Py.getitem self_features 0;
  self_n_nodes ← shape0 f0;
  let self_n_samples := length labels in
  (match labels_2 with
   | Some l2 => Py.assert (length l2 =? length labels)
   | None => Ok tt
   end);;
  Ok {| features := self_features; labels := self_labels;
        n_nodes := self_n_nodes; n_samples := self_n_samples;
        n := 0; _index := seq 0 self_n_samples;
        auto_reset_generator := auto_reset_generator;
        labels_2 := labels_2 |}.

Definition reset_generator (self : t) : t := set_n 0 self.

(** The tuple [_iterate] builds, in either of its branches, from position
    [i] of the parallel series: [features[i]] is read first, then
    [labels[i]], then [labels_2[i]]. *)
Definition sample_at (self : t) (i : nat) : result sample :=
  match labels_2 self with
  | Some l2 =>
      f ← Py.getitem (features self) i;
      l ← Py.getitem (labels self) i;
      c ← Py.getitem l2 i;
      Ok (Triple f l c)
  | None =>
      f ← Py.getitem (features self) i;
      l ← Py.getitem (labels self) i;
      Ok (Pair f l)
  end.

(** [_iterate] up to its first [yield]: the object after the call and
    the value yielded, or the exception raised. *)
Definition _iterate (self : t) : t * result sample :=
  let self := set_n (n self + 1) self in
  if (n self =? n_samples self) && auto_reset_generator self then
    match sample_at self (n self - 1) with
    | Ok sample => (reset_generator self, Ok sample)
    | Raise e => (self, Raise e)
    end
  else (self, sample_at self (n self - 1)).

Definition next_sample (self : t) : t * result sample := _iterate self.

Definition set_series (fs : list Tensor) (ls : list Q) (idx : list nat)
    (l2 : option (list Z)) (self : t) : t :=
  {| features := fs; labels := ls;
     n_nodes := n_nodes self; n_samples := n_samples self;
     n := n self; _index := idx;
     auto_reset_generator := auto_reset_generator self;
     labels_2 := l2 |}.

(** [shuffle_samples]; [rnd] holds the draws of [random.shuffle].  The
    index list is shuffled in place before anything can raise. *)
Definition shuffle_samples (rnd : nat -> nat) (self : t) : t * result unit :=
  let idx := Py.shuffle rnd (_index self) in
  let self := set_series (features self) (labels self) idx (labels_2 self) self in
  match Py.dict_comp (labels self) idx [] with
  | Raise e => (self, Raise e)
  | Ok dl =>
    let self := set_series (features self) (Py.dict_values dl) idx (labels_2 self) self in
    match Py.dict_comp (features self) idx [] with
    | Raise e => (self, Raise e)
    | Ok df =>
      let self := set_series (Py.dict_values df) (labels self) idx (labels_2 self) self in
      match labels_2 self with
      | None => (self, Ok tt)
      | Some l2 =>
        match Py.dict_comp l2 idx [] with
        | Raise e => (self, Raise e)
        | Ok d2 =>
          (set_series (features self) (labels self) idx (Some (Py.dict_values d2)) self,
           Ok tt)
        end
      end
    end
  end.

(** The operations a training loop applies to a generator. *)
Inductive op : Type :=
| NextSample
| ResetGenerator
| ShuffleSamples (rnd : nat -> nat).

Definition step (o : op) (self : t) : t :=
  match o with
  | NextSample => fst (next_sample self)
  | ResetGenerator => reset_generator self
  | ShuffleSamples rnd => fst (shuffle_samples rnd self)
  end.

Definition run (ops : list op) (self : t) : t := fold_left (fun g o => step o g) ops self.

(** [k] consecutive calls of [next_sample]: the object afterwards and
    the outcome of each call, in order. *)
Fixpoint next_samples (k : nat) (self : t) : t * list (result sample) :=
  match k with
  | 0 => (self, [])
  | S k' =>
      let '(self1, r) := next_sample self in
      let '(self2, rs) := next_samples k' self1 in
      (self2, r :: rs)
  end.

(** The invariant of the data model. *)
Definition lengths_agree (self : t) : Prop :=
  length (features self) = n_samples self /\
  length (labels self) = n_samples self /\
  match labels_2 self with
  | Some l2 => length l2 = n_samples self
  | None => True
  end.

(** The outcome of the [k]-th consecutive call of [next_sample],
    counted from 1. *)
Definition kth_call (k : nat) (self : t) : result sample :=
  snd (next_sample (fst (next_samples (k - 1) self))).

(** [s] is the sample at index [i]: the pair of [features[i]] and
    [labels[i]], extended with [labels_2[i]] when [labels_2] is
    present. *)
Definition is_sample_at (self : t) (i : nat) (s : sample) : Prop :=
  exists f l,
    features self !! i = Some f /\ labels self !! i = Some l /\
    match labels_2 self with
    | None => s = Pair f l
    | Some l2 => exists c, l2 !! i = Some c /\ s = Triple f l c
    end.

(** The objects a program can hold: a constructed generator, after any
    number of operations. *)
Inductive reachable : t -> Prop :=
| reachable_init fs ls l2 ar gn pc self :
    __init__ fs ls l2 ar gn pc = Ok self -> reachable self
| reachable_step o self :
    reachable self -> reachable (step o self).

(** Entry [j] of a series after a shuffle is entry [p] of the series
    before it. *)
Definition moved {A} (old new : list A) (j p : nat) : Prop :=
  exists v, old !! p = Some v /\ new !! j = Some v.

End DataGenerator.

(** ** utils.py: [MetricAccumulator] *)

Module MetricAccumulator.

Record t : Type := mk {
  training_data_loss : list Q;
  training_data_acc : list Q;
  testing_data_loss : list Q;
  testing_data_acc : list Q;
  training_data_loss_grads : list Q;
  training_data_acc_grads : list Q;
  testing_data_loss_grads : list Q;
  testing_data_acc_grads : list Q;
  gradient_batch : Z
}.

Definition __init__ (gradient_batch : Z) : t :=
  mk [] [] [] [] [] [] [] [] gradient_batch.

(** The eight series, named as the attributes are. *)
Inductive series : Set :=
| Training_data_loss
| Training_data_acc
| Testing_data_loss
| Testing_data_acc
| Training_data_loss_grads
| Training_data_acc_grads
| Testing_data_loss_grads
| Testing_data_acc_grads.

Definition all_series : list series :=
  [Training_data_loss; Training_data_acc; Testing_data_loss; Testing_data_acc;
   Training_data_loss_grads; Training_data_acc_grads;
   Testing_data_loss_grads; Testing_data_acc_grads].

Definition get (s : series) (self : t) : list Q :=
  match s with
  | Training_data_loss => training_data_loss self
  | Training_data_acc => training_data_acc self
  | Testing_data_loss => testing_data_loss self
  | Testing_data_acc => testing_data_acc self
  | Training_data_loss_grads => training_data_loss_grads self
  | Training_data_acc_grads => training_data_acc_grads self
  | Testing_data_loss_grads => testing_data_loss_grads self
  | Testing_data_acc_grads => testing_data_acc_grads self
  end.

Definition series_tag (s : series) : nat :=
  match s with
  | Training_data_loss => 0
  | Training_data_acc => 1
  | Testing_data_loss => 2
  | Testing_data_acc => 3
  | Training_data_loss_grads => 4
  | Training_data_acc_grads => 5
  | Testing_data_loss_grads => 6
  | Testing_data_acc_grads => 7
  end.

(** [self.<s>.append(v)] *)
Definition append (s : series) (v : Q) (self : t) : t :=
  let upd s' :=
    if series_tag s' =? series_tag s then get s' self ++ [v] else get s' self in
  mk (upd Training_data_loss) (upd Training_data_acc)
     (upd Testing_data_loss) (upd Testing_data_acc)
     (upd Training_data_loss_grads) (upd Training_data_acc_grads)
     (upd Testing_data_loss_grads) (upd Testing_data_acc_grads)
     (gradient_batch self).

Definition metric_gradient (self : t) (x : list Q) : result Q :=
  let batch := gradient_batch self in
  let data := Py.slice_from x (- batch) in
  last ← Py.getitem_int data (-1);
  first ← Py.getitem_int data 0;
  Ok (Py.round2 ((last - first) / inject_Z (Z.of_nat (length data)))).

(** A method body: the object is threaded through, and stays as it is
    at the point where an exception is raised. *)
Definition method (A : Type) : Type := t -> t * result A.

Definition and_then {A B} (m : method A) (k : A -> method B) : method B :=
  fun self =>
    match m self with
    | (self', Ok a) => k a self'
    | (self', Raise e) => (self', Raise e)
    end.

(** Evaluate an expression over [self]. *)
Definition eval {A} (e : t -> result A) : method A := fun self => (self, e self).

(** [self.<s>.append(e)]: the argument is evaluated first. *)
Definition append_value (s : series) (e : t -> result Q) : method unit :=
  and_then (eval e) (fun v self => (append s v self, Ok tt)).

Definition _all_grads : method unit :=
  and_then (append_value Training_data_loss_grads
              (fun self => metric_gradient self (training_data_loss self))) (fun _ =>
  and_then (append_value Training_data_acc_grads
              (fun self => metric_gradient self (training_data_acc self))) (fun _ =>
  and_then (append_value Testing_data_loss_grads
              (fun self => metric_gradient self (testing_data_loss self))) (fun _ =>
  append_value Testing_data_acc_grads
              (fun self => metric_gradient self (testing_data_acc self))))).

Definition add (epoch_results : list Q) : method unit :=
  and_then (append_value Training_data_loss (fun _ => Py.getitem epoch_results 0)) (fun _ =>
  and_then (append_value Training_data_acc (fun _ => Py.getitem epoch_results 1)) (fun _ =>
  and_then (append_value Testing_data_loss (fun _ => Py.getitem epoch_results 2)) (fun _ =>
  and_then (append_value Testing_data_acc (fun _ => Py.getitem epoch_results 3)) (fun _ =>
  _all_grads)))).

(** One [add] per element of [results], in order, stopping at the first
    call that raises. *)
Fixpoint add_all (results : list (list Q)) : method unit :=
  match results with
  | [] => fun self => (self, Ok tt)
  | r :: rest => and_then (add r) (fun _ => add_all rest)
  end.

(** The metric series a gradient series is computed from. *)
Definition metric_of (s : series) : series :=
  match s with
  | Training_data_loss_grads => Training_data_loss
  | Training_data_acc_grads => Training_data_acc
  | Testing_data_loss_grads => Testing_data_loss
  | Testing_data_acc_grads => Testing_data_acc
  | s => s
  end.

Definition grads_series : list series :=
  [Training_data_loss_grads; Training_data_acc_grads;
   Testing_data_loss_grads; Testing_data_acc_grads].

(** The window of the last [k] recorded epochs, or all of them if fewer
    have been recorded. *)
Definition trailing_window (k : nat) (x : list Q) : list Q :=
  drop (length x - Nat.min k (length x)) x.

(** The slope over a window: the change between its first and its last
    entry divided by the number of epochs in it, to two decimals. *)
Definition window_slope (w : list Q) : option Q :=
  first ← head w;
  final ← last w;
  Some (Py.round2 ((final - first) / inject_Z (Z.of_nat (length w)))).

End MetricAccumulator.

(** ** model.py: [VanillaNN] and [MICPredictor] *)

Module Model.

(** A two-dimensional tensor, as the list of its rows. *)
Definition matrix : Type := list (list Q).

(** [nn.Linear(in_features, out_features)]: [weight] has one row per
    output unit. *)
Record Linear : Type := mkLinear {
  in_features : nat;
  weight : list (list Q);
  bias : list Q
}.

(** [x.transpose(0, 1)] *)
Fixpoint transpose (x : matrix) : matrix :=
  match x with
  | [] => []
  | r :: rs =>
      match rs with
      | [] => map (fun v => [v]) r
      | _ :: _ => zip_with cons r (transpose rs)
      end
  end.

Definition dot (u v : list Q) : Q :=
  fold_left Qplus (zip_with Qmult u v) 0%Q.

(** [layer(x)]: every row of [x] times the transposed weight, plus the
    bias; rows of another width than [in_features] are refused. *)
Definition apply_linear (layer : Linear) (x : matrix) : result matrix :=
  if forallb (fun row => length row =? in_features layer) x then
    Ok (map (fun row => zip_with (fun w b => (dot row w + b)%Q)
                          (weight layer) (bias layer)) x)
  else Raise RuntimeError.

(** [F.leaky_relu] on one entry, with the default slope 0.01. *)
Definition leaky (v : Q) : Q :=
  if Py.lt 0 v then v else (v * (1 # 100))%Q.

Definition leaky_relu (x : matrix) : matrix := map (map leaky) x.

(** [F.dropout(x, p, inplace=True, training=True)]: the entries the
    draw [keep row column] spares are scaled by 1 / (1 - p), the others
    become 0; a rate outside [0, 1] is refused. *)
Definition dropout (p : Q) (keep : nat -> nat -> bool) (x : matrix) : result matrix :=
  if Py.lt p 0 || Py.lt 1 p then Raise ValueError
  else Ok (imap (fun i row =>
             imap (fun j v => if keep i j then (v / (1 - p))%Q else 0%Q) row) x).

(** [y[0][0]] *)
Definition item00 (y : matrix) : result Q :=
  row ← Py.getitem y 0; Py.getitem row 0.

Module VanillaNN.

Record t : Type := mk {
  linear1 : Linear;
  linear2 : Linear;
  linear3 : Linear;
  dropout_rate : Q
}.

(** [forward(x, adj=None)]; [adj] is not used.  [keep1] and [keep2]
    are the draws of the two dropout calls. *)
Definition forward (self : t) (keep1 keep2 : nat -> nat -> bool) (x : matrix)
  : result Q :=
  y ← apply_linear (linear1 self) (transpose x);
  let x := leaky_relu y in
  x ← dropout (dropout_rate self) keep1 x;
  y ← apply_linear (linear2 self) x;
  let x := leaky_relu y in
  x ← dropout (dropout_rate self) keep2 x;
  y ← apply_linear (linear3 self) x;
  v ← item00 y;
  let out := leaky v in
  Ok out.

End VanillaNN.

Module MICPredictor.

Definition forward (self : VanillaNN.t) (keep1 keep2 : nat -> nat -> bool)
    (x : matrix) : result (Q * matrix) :=
  y ← apply_linear (VanillaNN.linear1 self) (transpose x);
  let x := leaky_relu y in
  x ← dropout (VanillaNN.dropout_rate self) keep1 x;
  y ← apply_linear (VanillaNN.linear2 self) x;
  let x := leaky_relu y in
  x ← dropout (VanillaNN.dropout_rate self) keep2 x;
  y ← apply_linear (VanillaNN.linear3 self) x;
  v ← item00 y;
  let out := leaky v in
  Ok (out, x).

End MICPredictor.

(** A linear layer followed by the nonlinearity and dropout. *)
Definition hidden_layer (layer : Linear) (p : Q) (keep : nat -> nat -> bool)
    (x : matrix) : result matrix :=
  y ← apply_linear layer x; dropout p keep (leaky_relu y).

(** A linear layer followed by the nonlinearity on its first entry. *)
Definition output_layer (layer : Linear) (x : matrix) : result Q :=
  y ← apply_linear layer x; v ← item00 y; Ok (leaky v).

(** The value returned is the number [q]. *)
Definition returns (r : result Q) (q : Q) : Prop :=
  match r with
  | Ok v => (v == q)%Q
  | Raise _ => False
  end.

End Model.
(** ** Exceptions of the remaining functions *)

(** The functions below can also divide by zero. *)
Inductive error : Set :=
| Builtin (e : exn)
| ZeroDivisionError.

Inductive outcome (A : Type) : Type :=
| Return (a : A)
| Throw (e : error).
Arguments Return {A} a.
Arguments Throw {A} e.

#[global] Instance outcome_ret : MRet outcome := fun A a => Return a.
#[global] Instance outcome_bind : MBind outcome := fun A B f m =>
  match m with
  | Return a => f a
  | Throw e => Throw e
  end.

(** A computation that raises builtin exceptions only. *)
Definition lift {A} (r : result A) : outcome A :=
  match r with
  | Ok a => Return a
  | Raise e => Throw (Builtin e)
  end.

Module Builtins.

(** The builtin [max(iterable)]: the first largest item, [ValueError] when
    the iterable is empty. *)
Definition max (l : list Q) : result Q :=
  match l with
  | [] => Raise ValueError
  | x :: xs => Ok (fold_left (fun cur item => if Py.lt cur item then item else cur) xs x)
  end.

(** [l.index(v)]: the first position whose item equals [v] as a number,
    [ValueError] when there is none. *)
Fixpoint index (l : list Q) (v : Q) : result nat :=
  match l with
  | [] => Raise ValueError
  | x :: xs => if Qeq_bool x v then Ok 0 else i ← index xs v; Ok (S i)
  end.

(** [sum(l)] *)
Definition sum (l : list Q) : Q := fold_left Qplus l 0%Q.

(** [a / b] for a number [a] and a length [b]. *)
Definition div (a : Q) (b : nat) : outcome Q :=
  if b =? 0 then Throw ZeroDivisionError
  else Return (a / inject_Z (Z.of_nat b))%Q.

(** [list(map(f, l))]: the items in order, up to the first that raises. *)
Fixpoint map_list {A B} (f : A -> result B) (l : list A) : result (list B) :=
  match l with
  | [] => Ok []
  | x :: xs => y ← f x; ys ← map_list f xs; Ok (y :: ys)
  end.

(** [torch.cat(ts)] of one-dimensional tensors; an empty list of tensors
    is refused. *)
Definition cat_all {A} (ts : list (list A)) : result (list A) :=
  match ts with
  | [] => Raise RuntimeError
  | _ :: _ => Ok (concat ts)
  end.

(** [np.array(l)[mask]] for a list [mask] of bools. *)
Fixpoint select {A} (l : list A) (mask : list bool) : list A :=
  match l, mask with
  | x :: l', b :: mask' => if b then x :: select l' mask' else select l' mask'
  | _, _ => []
  end.

End Builtins.

(** ** utils.py: [load_labels_2], [country_accuracy], [write_epoch_results] *)

Module Utils.

(** [transform], the inner function of [load_labels_2]: the position of
    the first largest entry of a row, as a tensor of one class index. *)
Definition transform (labels_2 : list Q) : result (list Z) :=
  m ← Builtins.max labels_2;
  c_index ← Builtins.index labels_2 m;
  Ok [Z.of_nat c_index].

(** [torch.cat(list(map(transform, t.unbind(0))))] for a two-dimensional
    tensor [t], given as the list of its rows. *)
Definition class_indices (t : list (list Q)) : result (list Z) :=
  rows ← Builtins.map_list transform t;
  Builtins.cat_all rows.

Section load_labels_2.

(** [torch.load] of a two-dimensional tensor, and [os.path.join]. *)
Variable torch_load : string -> outcome (list (list Q)).
Variable path_join : string -> string -> string.

Definition load_labels_2 (data_dir : string) (countries families : bool)
  : outcome (list Z * list Z) :=
  if Bool.eqb countries families then Throw (Builtin ValueError)
  else
    let name := if countries then "countries"%string else "families"%string in
    training_labels_2 ←
      torch_load (path_join data_dir ("training_" ++ name ++ ".pt")%string);
    testing_labels_2 ←
      torch_load (path_join data_dir ("testing_" ++ name ++ ".pt")%string);
    training_labels_2 ← lift (class_indices training_labels_2);
    testing_labels_2 ← lift (class_indices testing_labels_2);
    Return (training_labels_2, testing_labels_2).

End load_labels_2.

(** One item of [correct_bool] in [country_accuracy]. *)
Definition correct_at (predictions : list (list Q)) (labels : list Z) (i : nat)
  : result bool :=
  p ← Py.getitem predictions i;
  m ← Builtins.max p;
  c ← Builtins.index p m;
  l ← Py.getitem labels i;
  Ok (Z.of_nat c =? l)%Z.

Definition country_accuracy (predictions : list (list Q)) (labels : list Z)
  : outcome Q :=
  lift (Py.assert (length predictions =? length labels));;
  correct_bool ←
    lift (Builtins.map_list (correct_at predictions labels)
            (seq 0 (length predictions)));
  q ← Builtins.div
         (inject_Z (Z.of_nat (length (Builtins.select labels correct_bool))))
         (length labels);
  Return (q * 100)%Q.

Definition tab : string := String (Ascii.ascii_of_nat 9) EmptyString.

Definition newline : string := String (Ascii.ascii_of_nat 10) EmptyString.

(** The header line that [write_epoch_results] writes to a new file. *)
Definition header : string :=
  (String.concat tab
     [ "epoch"; "training_data_loss"; "training_data_acc"; "testing_data_loss";
       "testing_data_acc"; "validation_data_loss"; "validation_data_acc" ]
   ++ newline)%string.

Section write_epoch_results.

(** [str] on an epoch number and on a result. *)
Variable epoch_t result_t : Type.
Variable str_epoch : epoch_t -> string.
Variable str_result : result_t -> string.

Definition line (epoch : epoch_t) (epoch_results : list result_t) : string :=
  (str_epoch epoch ++ tab ++ String.concat tab (map str_result epoch_results))%string.

(** [write_epoch_results] on a file system that maps the path of every
    regular file to its contents. *)
Definition write_epoch_results (epoch : epoch_t) (epoch_results : list result_t)
    (summary_file : string) (files : gmap string string) : gmap string string :=
  let files :=
    match files !! summary_file with
    | None => <[summary_file := header]> files
    | Some _ => files
    end in
  <[summary_file :=
      (default EmptyString (files !! summary_file)
       ++ (line epoch epoch_results ++ newline))%string]> files.

(** One call per epoch, in order. *)
Definition write_all (epochs : list (epoch_t * list result_t))
    (summary_file : string) (files : gmap string string) : gmap string string :=
  fold_left (fun fs e => write_epoch_results (fst e) (snd e) summary_file fs)
    epochs files.

(** The lines of the epochs, each with its newline, one after another. *)
Definition lines (epochs : list (epoch_t * list result_t)) : string :=
  fold_right (fun e rest => (line (fst e) (snd e) ++ newline ++ rest)%string)
    EmptyString epochs.

End write_epoch_results.

End Utils.

(** ** utils.py: [MetricAccumulator.avg_gradient] and [log_gradients] *)

Module MetricLog.

Import MetricAccumulator.

Definition avg_gradient (self : t) (x : list Q) : outcome Q :=
  let batch := gradient_batch self in
  let data := Py.slice_from x (- batch) in
  Builtins.div (Builtins.sum data) (length data).

(** What [log_gradients] hands to [logging.info]: the epoch, [last_epoch]
    and the four averages. *)
Record message : Type := mkMessage {
  msg_epoch : Z;
  msg_last_epoch : Z;
  msg_avg_grads : list Q
}.

Definition log_gradients (self : t) (epoch : Z) : outcome message :=
  a0 ← avg_gradient self (training_data_loss_grads self);
  a1 ← avg_gradient self (training_data_acc_grads self);
  a2 ← avg_gradient self (testing_data_loss_grads self);
  a3 ← avg_gradient self (testing_data_acc_grads self);
  let avg_grads := [a0; a1; a2; a3] in
  let last_epoch := Z.max 0 (epoch - gradient_batch self) in
  Return (mkMessage epoch last_epoch avg_grads).

(** The four metric series, in the order of the entries of
    [epoch_results] that [add] appends to them. *)
Definition metric_series : list series :=
  [Training_data_loss; Training_data_acc; Testing_data_loss; Testing_data_acc].

End MetricLog.

(** ** Epochs of a generator, and well-shaped networks *)

Module Epoch.

Import Torch DataGenerator.

(** The outcomes of one pass: [n_samples] consecutive calls of
    [next_sample]. *)
Definition pass (self : t) : list (result sample) :=
  snd (next_samples (n_samples self) self).

(** The features [__init__] can store. *)
Definition storable (global_node pre_convolved : bool) (fs : list Tensor) : Prop :=
  if pre_convolved then
    exists f0 d ds, fs !! 0 = Some f0 /\ shape f0 = d :: ds
  else
    Forall (fun f => if global_node then exists d, shape f = [d]
                     else shape f <> []) fs.

End Epoch.

Module Shapes.

Import Model.

(** A layer as [nn.Linear(in_features, out_features)] builds it. *)
Definition linear_shape (layer : Linear) (n_in n_out : nat) : Prop :=
  in_features layer = n_in /\
  length (weight layer) = n_out /\
  length (bias layer) = n_out.

(** A feature vector as a column. *)
Definition column (xs : list Q) : matrix := map (fun v => [v]) xs.

End Shapes.

(** ** Sample data *)

Module Sample.

Import Torch.

Definition features : list Tensor :=
  [ {| shape := [2]; data := [1; 2]%Q |};
    {| shape := [2]; data := [3; 4]%Q |};
    {| shape := [2]; data := [5; 6]%Q |} ].

Definition labels : list Q := [-3; 1; 2]%Q.

Definition labels_2 : list Z := [0; 1; 0]%Z.

Definition no_generator : DataGenerator.t :=
  DataGenerator.mk [] [] 0 0 0 [] false None.

Definition build (r : result DataGenerator.t) : DataGenerator.t :=
  match r with
  | Ok self => self
  | Raise _ => no_generator
  end.

(** [DataGenerator(features, labels, labels_2)] *)
Definition cycling : DataGenerator.t :=
  Eval vm_compute in
    build (DataGenerator.__init__ features labels (Some labels_2) true true false).

(** [DataGenerator(features, labels, auto_reset_generator=False)] *)
Definition one_pass : DataGenerator.t :=
  Eval vm_compute in
    build (DataGenerator.__init__ features labels None false true false).

(** Draws for [random.shuffle]. *)
Definition draws (i : nat) : nat := 6 * i.

(** Three epochs of results: training loss and accuracy, testing loss and
    accuracy, validation loss and accuracy. *)
Definition epochs : list (list Q) :=
  [ [9 # 10; 50; 1; 45; 1; 44];
    [7 # 10; 61; 17 # 20; 52; 9 # 10; 50];
    [13 # 20; 66; 4 # 5; 58; 17 # 20; 55] ]%Q.

Definition epoch_4 : list Q := [3 # 5; 70; 79 # 100; 59; 4 # 5; 57]%Q.

(** [MetricAccumulator(gradient_batch=2)] after the three epochs. *)
Definition recorded : MetricAccumulator.t :=
  Eval vm_compute in
    fst (MetricAccumulator.add_all epochs (MetricAccumulator.__init__ 2)).

(** The same accumulator after a fourth epoch. *)
Definition recorded_4 : MetricAccumulator.t :=
  Eval vm_compute in fst (MetricAccumulator.add epoch_4 recorded).

(** A network with three input features, two hidden layers of two units
    and one output, and a second one that differs in [linear3] only. *)
Definition net : Model.VanillaNN.t :=
  {| Model.VanillaNN.linear1 :=
       Model.mkLinear 3 [[1; 0; 0]; [0; 1; -1]]%Q [0; 1 # 2]%Q;
     Model.VanillaNN.linear2 := Model.mkLinear 2 [[1; 1]; [1; -1]]%Q [0; 0]%Q;
     Model.VanillaNN.linear3 := Model.mkLinear 2 [[1; 1]]%Q [0]%Q;
     Model.VanillaNN.dropout_rate := 1 # 2 |}.

Definition net' : Model.VanillaNN.t :=
  {| Model.VanillaNN.linear1 := Model.VanillaNN.linear1 net;
     Model.VanillaNN.linear2 := Model.VanillaNN.linear2 net;
     Model.VanillaNN.linear3 := Model.mkLinear 2 [[2; 1]]%Q [0]%Q;
     Model.VanillaNN.dropout_rate := Model.VanillaNN.dropout_rate net |}.

(** A feature column, and dropout draws that spare every entry. *)
Definition column : Model.matrix := [[1]; [2]; [1 # 2]]%Q.

Definition keep_all (i j : nat) : bool := true.

End Sample.

(** ** More sample data *)

Module Data.

(** [Sample.one_pass] after five calls of [next_sample]: two more than it
    has samples. *)
Definition exhausted : DataGenerator.t :=
  Eval vm_compute in fst (DataGenerator.next_samples 5 Sample.one_pass).

(** [Sample.cycling] after one call of [next_sample]. *)
Definition started : DataGenerator.t :=
  Eval vm_compute in fst (DataGenerator.next_sample Sample.cycling).

(** Class scores of three isolates over three countries, and the
    countries they come from. *)
Definition scores : list (list Q) :=
  [ [1 # 10; 7 # 10; 2 # 10]; [1 # 2; 1 # 4; 1 # 2]; [0; 0; 1] ]%Q.

Definition classes : list Z := [1; 2; 2]%Z.

(** One-hot rows, as the label files hold them. *)
Definition one_hot : list (list Q) := [ [0; 1; 0]; [1; 0; 0] ]%Q.

(** A store that holds [one_hot] as the training file of the countries
    and [scores] as every other file. *)
Definition torch_load (path : string) : outcome (list (list Q)) :=
  if String.eqb path "data/training_countries.pt" then Return one_hot
  else Return scores.

Definition path_join (dir file : string) : string :=
  (dir ++ "/" ++ file)%string.

(** [str] on a one-digit number. *)
Definition str_digit (k : nat) : string :=
  String (Ascii.ascii_of_nat (48 + k)) EmptyString.

(** Two epochs to write to a summary file. *)
Definition summaries : list (nat * list nat) := [ (1, [9; 5; 8; 4; 8; 4]); (2, [7; 6; 7; 5; 7; 5]) ].

(** A new accumulator with a window of three epochs. *)
Definition fresh : MetricAccumulator.t := MetricAccumulator.__init__ 3.

End Data.

(** * Properties *)

Import Torch.

Lemma getitem_Ok {A} (l : list A) (i : nat) (x : A) :
  Py.getitem l i = Ok x <-> l !! i = Some x.
Proof.
  unfold Py.getitem. destruct (l !! i); split; intros H; congruence.
Qed.

Lemma getitem_lt {A} (l : list A) (i : nat) :
  i < length l -> exists x, l !! i = Some x /\ Py.getitem l i = Ok x.
Proof.
  intros H. destruct (lookup_lt_is_Some_2 l i H) as [x Hx].
  exists x. split; [done|]. by apply getitem_Ok.
Qed.

Lemma getitem_ge {A} (l : list A) (i : nat) :
  length l <= i -> Py.getitem l i = Raise IndexError.
Proof.
  intros H. unfold Py.getitem. by rewrite lookup_ge_None_2.
Qed.

(** Binding a computation that succeeded. *)
Lemma bind_Ok {A B} (m : result A) (k : A -> result B) (b : B) :
  m ≫= k = Ok b <-> exists a, m = Ok a /\ k a = Ok b.
Proof.
  destruct m as [a|e]; simpl; split.
  - intros H. by exists a.
  - by intros (a' & [= <-] & H).
  - discriminate.
  - by intros (a' & [=] & _).
Qed.

Lemma swap_length {A} (x : list A) i j : length (Py.swap x i j) = length x.
Proof.
  unfold Py.swap. destruct (x !! j), (x !! i); rewrite ?length_insert; done.
Qed.

Lemma swap_Permutation {A} (x : list A) i j : Py.swap x i j ≡ₚ x.
Proof.
  unfold Py.swap. destruct (x !! j) as [xj|] eqn:Hj, (x !! i) as [xi|] eqn:Hi; try done.
  by apply Permutation_insert_swap.
Qed.

Lemma shuffle_loop_Permutation {A} rnd i (x : list A) :
  Py.shuffle_loop rnd i x ≡ₚ x.
Proof.
  revert x. induction i as [|i IH]; intros x; simpl; [done|].
  rewrite IH. apply swap_Permutation.
Qed.

Lemma shuffle_Permutation {A} rnd (x : list A) : Py.shuffle rnd x ≡ₚ x.
Proof. apply shuffle_loop_Permutation. Qed.

Lemma dict_set_fresh {V} (k : nat) (v : V) d :
  k ∉ map fst d -> Py.dict_set k v d = d ++ [(k, v)].
Proof.
  induction d as [|[k' v'] d IH]; simpl; intros Hk; [done|].
  rewrite not_elem_of_cons in Hk. destruct Hk as [Hne Hk].
  destruct (Nat.eqb_spec k k') as [->|_]; [done|]. by rewrite IH.
Qed.

(** Over distinct keys a dict comprehension lists one entry per key, in
    the order of the keys. *)
Lemma dict_comp_NoDup {V} (src : list V) keys d :
  NoDup keys ->
  (forall k, k ∈ keys -> k ∉ map fst d) ->
  (forall k, k ∈ keys -> k < length src) ->
  exists vs, Forall2 (fun k v => src !! k = Some v) keys vs /\
             Py.dict_comp src keys d = Ok (d ++ zip keys vs).
Proof.
  revert d. induction keys as [|k keys IH]; intros d Hnd Hfresh Hlt; simpl.
  - exists []. split; [constructor|]. by rewrite app_nil_r.
  - apply NoDup_cons in Hnd as [Hk Hnd].
    destruct (getitem_lt src k) as (v & Hv & ->); [apply Hlt; left|]. simpl.
    destruct (IH (Py.dict_set k v d) Hnd) as (vs & Hvs & ->).
    + intros k' Hk'. rewrite dict_set_fresh by (apply Hfresh; left).
      rewrite map_app, elem_of_app. simpl. intros [H|H].
      * by apply (Hfresh k'); [right|].
      * apply list_elem_of_singleton in H. by subst.
    + intros k' Hk'. apply Hlt. by right.
    + exists (v :: vs). split; [by constructor|].
      rewrite dict_set_fresh by (apply Hfresh; left).
      by rewrite <- app_assoc.
Qed.

(** ** [DataGenerator] *)

Import DataGenerator.

Lemma parse_features_length fs gn l :
  _parse_features fs gn = Ok l -> length l = length fs.
Proof.
  revert l. induction fs as [|f fs IH]; intros l; simpl.
  - by intros [= <-].
  - intros (li & _ & (l' & Hl' & [= <-])%bind_Ok)%bind_Ok.
    simpl. f_equal. by apply IH.
Qed.

(** What a successful construction stores. *)
Lemma init_Ok fs ls l2 ar gn pc self :
  __init__ fs ls l2 ar gn pc = Ok self ->
  length fs = length ls /\
  (if pc then Ok fs else _parse_features fs gn) = Ok (features self) /\
  (exists m, Py.min (map Qabs ls) = Ok m /\
             labels self = map (fun x => (x + m)%Q) ls) /\
  (exists f0, features self !! 0 = Some f0 /\ shape0 f0 = Ok (n_nodes self)) /\
  n_samples self = length ls /\
  n self = 0 /\
  _index self = seq 0 (length ls) /\
  auto_reset_generator self = ar /\
  labels_2 self = l2 /\
  match l2 with Some l => length l = length ls | None => True end.
Proof.
  unfold __init__. intros H.
  apply bind_Ok in H as ([] & Hlen & H).
  apply bind_Ok in H as (sf & Hsf & H).
  apply bind_Ok in H as (m & Hm & H).
  apply bind_Ok in H as (f0 & Hf0 & H).
  apply bind_Ok in H as (nn & Hnn & H).
  apply bind_Ok in H as ([] & Hl2 & [= <-]). simpl.
  unfold Py.assert in Hlen. destruct (Nat.eqb_spec (length fs) (length ls)); [|done].
  repeat split; try done.
  - by exists m.
  - exists f0. split; [by apply getitem_Ok|done].
  - destruct l2 as [l|]; [|done]. unfold Py.assert in Hl2.
    by destruct (Nat.eqb_spec (length l) (length ls)).
Qed.

Lemma init_lengths_agree fs ls l2 ar gn pc self :
  __init__ fs ls l2 ar gn pc = Ok self ->
  lengths_agree self /\ 0 < n_samples self.
Proof.
  intros H. apply init_Ok in H
    as (Hlen & Hfs & (m & Hm & Hls) & _ & Hns & _ & _ & _ & Hl2 & Hlen2).
  unfold lengths_agree. rewrite Hns, Hls, Hl2, length_map.
  repeat split; try done.
  - destruct pc.
    + by injection Hfs as <-.
    + apply parse_features_length in Hfs. congruence.
  - destruct ls; [discriminate Hm|simpl; lia].
Qed.

Lemma sample_at_lt self i :
  lengths_agree self -> i < n_samples self ->
  exists s, sample_at self i = Ok s /\ is_sample_at self i s.
Proof.
  intros (Hf & Hl & H2) Hi. unfold sample_at, is_sample_at.
  destruct (getitem_lt (features self) i) as (f & Hf1 & Hf2); [lia|].
  destruct (getitem_lt (labels self) i) as (l & Hl1 & Hl2); [lia|].
  rewrite Hf2, Hl2. destruct (labels_2 self) as [l2|]; simpl.
  - destruct (getitem_lt l2 i) as (c & Hc1 & Hc2); [lia|].
    rewrite Hc2. simpl. exists (Triple f l c). split; [done|].
    exists f, l. repeat split; try done. by exists c.
  - exists (Pair f l). split; [done|]. by exists f, l.
Qed.

Lemma sample_at_ge self i :
  lengths_agree self -> n_samples self <= i ->
  sample_at self i = Raise IndexError.
Proof.
  intros (Hf & _ & _) Hi. unfold sample_at.
  rewrite (getitem_ge (features self)) by lia. by destruct (labels_2 self).
Qed.

Lemma next_sample_auto_reset self j :
  lengths_agree self -> auto_reset_generator self = true ->
  j < n_samples self ->
  next_sample (set_n j self) =
    (set_n ((j + 1) mod n_samples self) self, sample_at self j).
Proof.
  intros Hinv Har Hj. unfold next_sample, _iterate. simpl.
  rewrite Har, andb_true_r, Nat.add_sub.
  change (sample_at (set_n (j + 1) (set_n j self)) j) with (sample_at self j).
  destruct (Nat.eqb_spec (j + 1) (n_samples self)) as [Heq|Hne].
  - destruct (sample_at_lt self j Hinv Hj) as (s & -> & _).
    rewrite Heq, Nat.Div0.mod_same. done.
  - rewrite Nat.mod_small by lia. done.
Qed.

Lemma next_samples_auto_reset self k j :
  lengths_agree self -> auto_reset_generator self = true ->
  j < n_samples self ->
  fst (next_samples k (set_n j self)) = set_n ((j + k) mod n_samples self) self.
Proof.
  intros Hinv Har. revert j. induction k as [|k IH]; intros j Hj; simpl.
  - by rewrite Nat.add_0_r, Nat.mod_small.
  - rewrite next_sample_auto_reset by done.
    specialize (IH ((j + 1) mod n_samples self)).
    destruct (next_samples k _) as [self2 rs]. simpl in *.
    rewrite IH by (apply Nat.mod_upper_bound; lia).
    rewrite Nat.Div0.add_mod_idemp_l. f_equal. f_equal. lia.
Qed.

Lemma next_sample_no_reset self j :
  auto_reset_generator self = false ->
  next_sample (set_n j self) = (set_n (j + 1) self, sample_at self j).
Proof.
  intros Har. unfold next_sample, _iterate. simpl.
  by rewrite Har, andb_false_r, Nat.add_sub.
Qed.

Lemma next_samples_no_reset self k j :
  auto_reset_generator self = false ->
  fst (next_samples k (set_n j self)) = set_n (j + k) self.
Proof.
  intros Har. revert j. induction k as [|k IH]; intros j; simpl.
  - by rewrite Nat.add_0_r.
  - rewrite next_sample_no_reset by done.
    specialize (IH (j + 1)).
    destruct (next_samples k _) as [self2 rs]. simpl in *.
    rewrite IH. f_equal. lia.
Qed.

Lemma set_n_same self : set_n (n self) self = self.
Proof. by destruct self. Qed.

Lemma dict_comp_reindex {V} (src : list V) keys :
  NoDup keys -> (forall k, k ∈ keys -> k < length src) ->
  exists d, Py.dict_comp src keys [] = Ok d /\
            Forall2 (fun k v => src !! k = Some v) keys (Py.dict_values d).
Proof.
  intros Hnd Hlt.
  destruct (dict_comp_NoDup src keys [] Hnd) as (vs & Hvs & Hd); [|done|].
  { intros k _. simpl. apply not_elem_of_nil. }
  exists (zip keys vs). split; [done|].
  unfold Py.dict_values. change (map snd (zip keys vs)) with ((zip keys vs).*2).
  rewrite snd_zip; [done|]. by rewrite (Forall2_length _ _ _ Hvs).
Qed.

Lemma index_in_range (idx : list nat) ns k :
  idx ≡ₚ seq 0 ns -> k ∈ idx -> k < ns.
Proof.
  intros Hp Hk. rewrite Hp in Hk. apply elem_of_seq in Hk. lia.
Qed.

Lemma moved_of_Forall2 {A} (old new : list A) (idx : list nat) j p :
  Forall2 (fun k v => old !! k = Some v) idx new ->
  idx !! j = Some p -> moved old new j p.
Proof.
  intros HF Hj. destruct (Forall2_lookup_l _ _ _ _ _ HF Hj) as (v & Hv & Hold).
  by exists v.
Qed.

Lemma next_sample_state self : exists v, fst (next_sample self) = set_n v self.
Proof.
  unfold next_sample, _iterate.
  destruct (_ && _); [destruct (sample_at _ _)|]; simpl; eauto.
Qed.

(** On a generator whose series have [n_samples] entries and whose index
    list is a permutation of [0 .. n_samples - 1], [shuffle_samples]
    returns normally and reorders every series by the shuffled index. *)
Lemma shuffle_samples_Ok rnd self :
  lengths_agree self -> _index self ≡ₚ seq 0 (n_samples self) ->
  exists self',
    shuffle_samples rnd self = (self', Ok tt) /\
    _index self' = Py.shuffle rnd (_index self) /\
    n_samples self' = n_samples self /\
    Forall2 (fun k v => features self !! k = Some v) (_index self') (features self') /\
    Forall2 (fun k v => labels self !! k = Some v) (_index self') (labels self') /\
    match labels_2 self with
    | None => labels_2 self' = None
    | Some l2 => exists l2', labels_2 self' = Some l2' /\
        Forall2 (fun k v => l2 !! k = Some v) (_index self') l2'
    end.
Proof.
  intros (Hf & Hl & H2) Hidx. unfold shuffle_samples.
  set (idx := Py.shuffle rnd (_index self)).
  assert (Hperm : idx ≡ₚ seq 0 (n_samples self)).
  { unfold idx. by rewrite shuffle_Permutation. }
  assert (Hnd : NoDup idx) by (rewrite Hperm; apply NoDup_seq).
  assert (Hlt : forall k, k ∈ idx -> k < n_samples self)
    by (intros k; by apply index_in_range).
  simpl.
  destruct (dict_comp_reindex (labels self) idx Hnd) as (dl & -> & HFl).
  { intros k Hk. rewrite Hl. auto. }
  simpl.
  destruct (dict_comp_reindex (features self) idx Hnd) as (df & -> & HFf).
  { intros k Hk. rewrite Hf. auto. }
  simpl. destruct (labels_2 self) as [l2|] eqn:E2.
  - destruct (dict_comp_reindex l2 idx Hnd) as (d2 & -> & HF2).
    { intros k Hk. rewrite H2. auto. }
    eexists. split; [done|]. simpl. repeat split; try done.
    by exists (Py.dict_values d2).
  - eexists. split; [done|]. simpl. repeat split; done.
Qed.

Lemma reachable_invariant self :
  reachable self ->
  lengths_agree self /\ _index self ≡ₚ seq 0 (n_samples self).
Proof.
  induction 1 as [fs ls l2 ar gn pc self Hinit|o self Hr [Hinv Hidx]].
  - split; [by apply init_lengths_agree in Hinit as [? _]|].
    apply init_Ok in Hinit as (_ & _ & _ & _ & -> & _ & -> & _). done.
  - destruct o as [| |rnd]; simpl.
    + destruct (next_sample_state self) as [v ->]. done.
    + done.
    + destruct (shuffle_samples_Ok rnd self Hinv Hidx)
        as (self' & -> & Hi & Hns & HFf & HFl & HF2). simpl.
      split.
      * unfold lengths_agree. rewrite Hns.
        apply Forall2_length in HFf, HFl.
        assert (length (_index self') = n_samples self) as Hlen.
        { rewrite Hi, shuffle_Permutation, Hidx. apply length_seq. }
        repeat split; try congruence.
        destruct (labels_2 self) as [l2|].
        -- destruct HF2 as (l2' & -> & HF2). apply Forall2_length in HF2. congruence.
        -- by rewrite HF2.
      * by rewrite Hns, Hi, shuffle_Permutation.
Qed.

(** C1: on a generator constructed with [auto_reset_generator=True], the
    [k]-th consecutive call of [next_sample], for [1 <= k <= n_samples],
    returns the sample at index [k - 1]; after the [n_samples]-th call the
    cursor [n] is 0 again and the object is as it was at construction, so
    the calls that follow repeat the same sequence with period
    [n_samples]. *)
Theorem next_sample_cycles fs ls l2 gn pc self :
  __init__ fs ls l2 true gn pc = Ok self ->
  (forall k, 1 <= k <= n_samples self ->
     exists s, kth_call k self = Ok s /\ is_sample_at self (k - 1) s) /\
  n (fst (next_samples (n_samples self) self)) = 0 /\
  fst (next_samples (n_samples self) self) = self /\
  (forall k, 1 <= k -> kth_call (k + n_samples self) self = kth_call k self).
Proof.
  intros Hinit.
  destruct (init_lengths_agree _ _ _ _ _ _ _ Hinit) as [Hinv Hpos].
  apply init_Ok in Hinit as (_ & _ & _ & _ & _ & Hn & _ & Har & _).
  assert (Hself : set_n 0 self = self) by (rewrite <- Hn; apply set_n_same).
  assert (Hcall : forall k, 1 <= k ->
            kth_call k self = sample_at self ((k - 1) mod n_samples self)).
  { intros k Hk. unfold kth_call.
    replace (next_samples (k - 1) self) with (next_samples (k - 1) (set_n 0 self))
      by (by rewrite Hself).
    rewrite next_samples_auto_reset by done. simpl.
    rewrite next_sample_auto_reset by (try done; apply Nat.mod_upper_bound; lia).
    done. }
  assert (Hback : fst (next_samples (n_samples self) self) = self).
  { replace (next_samples (n_samples self) self)
      with (next_samples (n_samples self) (set_n 0 self)) by (by rewrite Hself).
    rewrite next_samples_auto_reset by done. simpl.
    by rewrite Nat.Div0.mod_same. }
  repeat split.
  - intros k Hk. rewrite Hcall by lia. rewrite Nat.mod_small by lia.
    apply sample_at_lt; [done|lia].
  - by rewrite Hback.
  - done.
  - intros k Hk. rewrite !Hcall by lia. f_equal.
    replace (k + n_samples self - 1) with ((k - 1) + 1 * n_samples self) by lia.
    apply Nat.Div0.mod_add.
Qed.

Lemma next_sample_cycles_witness :
  __init__ Sample.features Sample.labels (Some Sample.labels_2) true true false
    = Ok Sample.cycling /\
  (forall k, 1 <= k <= n_samples Sample.cycling ->
     exists s, kth_call k Sample.cycling = Ok s /\
               is_sample_at Sample.cycling (k - 1) s) /\
  n (fst (next_samples (n_samples Sample.cycling) Sample.cycling)) = 0 /\
  fst (next_samples (n_samples Sample.cycling) Sample.cycling) = Sample.cycling /\
  (forall k, 1 <= k ->
     kth_call (k + n_samples Sample.cycling) Sample.cycling
       = kth_call k Sample.cycling).
Proof.
  split; [reflexivity|].
  apply (next_sample_cycles Sample.features Sample.labels (Some Sample.labels_2)
           true false).
  reflexivity.
Defined.

Example cycling_calls :
  snd (next_samples 4 Sample.cycling) =
    [ Ok (Triple {| shape := [3; 1]; data := [1; 2; 1 # 2]%Q |} (-3 + 1)%Q 0%Z);
      Ok (Triple {| shape := [3; 1]; data := [3; 4; 1 # 2]%Q |} (1 + 1)%Q 1%Z);
      Ok (Triple {| shape := [3; 1]; data := [5; 6; 1 # 2]%Q |} (2 + 1)%Q 0%Z);
      Ok (Triple {| shape := [3; 1]; data := [1; 2; 1 # 2]%Q |} (-3 + 1)%Q 0%Z) ].
Proof. reflexivity. Qed.

(** C10: on a generator constructed with [auto_reset_generator=False],
    [next_sample] never resets the cursor: after [k] calls [n] is [k];
    the calls 1 to [n_samples] return the samples at the indices 0 to
    [n_samples - 1], and every later call raises [IndexError]. *)
Theorem next_sample_one_pass fs ls l2 gn pc self :
  __init__ fs ls l2 false gn pc = Ok self ->
  forall k, 1 <= k ->
    n (fst (next_samples k self)) = k /\
    (k <= n_samples self ->
       exists s, kth_call k self = Ok s /\ is_sample_at self (k - 1) s) /\
    (n_samples self < k -> kth_call k self = Raise IndexError).
Proof.
  intros Hinit k Hk.
  destruct (init_lengths_agree _ _ _ _ _ _ _ Hinit) as [Hinv Hpos].
  apply init_Ok in Hinit as (_ & _ & _ & _ & _ & Hn & _ & Har & _).
  assert (Hself : set_n 0 self = self) by (rewrite <- Hn; apply set_n_same).
  assert (Hstate : forall j, fst (next_samples j self) = set_n j self).
  { intros j.
    replace (next_samples j self) with (next_samples j (set_n 0 self))
      by (by rewrite Hself).
    by rewrite next_samples_no_reset. }
  assert (Hcall : kth_call k self = sample_at self (k - 1)).
  { unfold kth_call. rewrite Hstate. by rewrite next_sample_no_reset. }
  repeat split.
  - by rewrite Hstate.
  - intros Hle. rewrite Hcall. apply sample_at_lt; [done|lia].
  - intros Hgt. rewrite Hcall. apply sample_at_ge; [done|lia].
Qed.

Lemma next_sample_one_pass_witness :
  __init__ Sample.features Sample.labels None false true false
    = Ok Sample.one_pass /\
  n (fst (next_samples 4 Sample.one_pass)) = 4 /\
  (4 <= n_samples Sample.one_pass ->
     exists s, kth_call 4 Sample.one_pass = Ok s /\
               is_sample_at Sample.one_pass (4 - 1) s) /\
  (n_samples Sample.one_pass < 4 ->
     kth_call 4 Sample.one_pass = Raise IndexError).
Proof.
  split; [reflexivity|].
  apply (next_sample_one_pass Sample.features Sample.labels None true false).
  - reflexivity.
  - lia.
Defined.

Example one_pass_calls :
  snd (next_samples 5 Sample.one_pass) =
    [ Ok (Pair {| shape := [3; 1]; data := [1; 2; 1 # 2]%Q |} (-3 + 1)%Q);
      Ok (Pair {| shape := [3; 1]; data := [3; 4; 1 # 2]%Q |} (1 + 1)%Q);
      Ok (Pair {| shape := [3; 1]; data := [5; 6; 1 # 2]%Q |} (2 + 1)%Q);
      Raise IndexError;
      Raise IndexError ].
Proof. reflexivity. Qed.

(** C3: on every generator a program can hold, [shuffle_samples] returns
    normally and leaves in [_index] a permutation of
    [0 .. n_samples - 1]; for every position [j], with [p] the entry of the
    shuffled [_index] at [j], the new [features[j]], [labels[j]] and (when
    present) [labels_2[j]] are the old entries at [p].  Each feature thus
    keeps its label and its [labels_2] entry. *)
Theorem shuffle_samples_common_permutation rnd self :
  reachable self ->
  exists self',
    shuffle_samples rnd self = (self', Ok tt) /\
    _index self' ≡ₚ seq 0 (n_samples self) /\
    n_samples self' = n_samples self /\
    forall j, j < n_samples self ->
      exists p,
        _index self' !! j = Some p /\
        moved (features self) (features self') j p /\
        moved (labels self) (labels self') j p /\
        match labels_2 self, labels_2 self' with
        | Some old, Some new => moved old new j p
        | None, None => True
        | _, _ => False
        end.
Proof.
  intros [Hinv Hidx]%reachable_invariant.
  destruct (shuffle_samples_Ok rnd self Hinv Hidx)
    as (self' & Hrun & Hi & Hns & HFf & HFl & HF2).
  exists self'. split; [done|].
  assert (Hperm : _index self' ≡ₚ seq 0 (n_samples self))
    by (by rewrite Hi, shuffle_Permutation).
  repeat split; try done.
  intros j Hj.
  destruct (lookup_lt_is_Some_2 (_index self') j) as [p Hp].
  { by rewrite Hperm, length_seq. }
  exists p. split; [done|].
  split; [by eapply moved_of_Forall2|].
  split; [by eapply moved_of_Forall2|].
  destruct (labels_2 self) as [old|].
  - destruct HF2 as (new & -> & HF2). by eapply moved_of_Forall2.
  - by rewrite HF2.
Qed.

Lemma shuffle_samples_common_permutation_witness :
  reachable Sample.cycling /\
  exists self',
    shuffle_samples Sample.draws Sample.cycling = (self', Ok tt) /\
    _index self' ≡ₚ seq 0 (n_samples Sample.cycling) /\
    n_samples self' = n_samples Sample.cycling /\
    forall j, j < n_samples Sample.cycling ->
      exists p,
        _index self' !! j = Some p /\
        moved (features Sample.cycling) (features self') j p /\
        moved (labels Sample.cycling) (labels self') j p /\
        match labels_2 Sample.cycling, labels_2 self' with
        | Some old, Some new => moved old new j p
        | None, None => True
        | _, _ => False
        end.
Proof.
  assert (Hr : reachable Sample.cycling).
  { apply (reachable_init Sample.features Sample.labels (Some Sample.labels_2)
             true true false). reflexivity. }
  split; [exact Hr|].
  apply (shuffle_samples_common_permutation Sample.draws Sample.cycling Hr).
Defined.

Example shuffle_cycling :
  let self' := fst (shuffle_samples Sample.draws Sample.cycling) in
  _index self' = [1; 2; 0] /\
  labels self' = [1 + 1; 2 + 1; -3 + 1]%Q /\
  labels_2 self' = Some [1; 0; 0]%Z /\
  map Torch.data (features self') = [[3; 4; 1 # 2]; [5; 6; 1 # 2]; [1; 2; 1 # 2]]%Q.
Proof. repeat split. Qed.

Lemma lt_Qlt (x y : Q) : Py.lt x y = true <-> (x < y)%Q.
Proof. unfold Py.lt, Qlt. apply Z.ltb_lt. Qed.

Lemma fold_min_spec (xs : list Q) (cur : Q) :
  let m := fold_left (fun cur item => if Py.lt item cur then item else cur) xs cur in
  (m = cur \/ m ∈ xs) /\ (m <= cur)%Q /\ forall y, y ∈ xs -> (m <= y)%Q.
Proof.
  revert cur. induction xs as [|item xs IH]; intros cur; simpl.
  - split; [by left|]. split; [apply Qle_refl|]. intros y Hy. by apply elem_of_nil in Hy.
  - set (cur' := if Py.lt item cur then item else cur).
    destruct (IH cur') as (Hm & Hle & Hall).
    assert (Hcur : (cur' <= cur)%Q /\ (cur' <= item)%Q).
    { unfold cur'. destruct (Py.lt item cur) eqn:E.
      - apply lt_Qlt in E. split; [by apply Qlt_le_weak|apply Qle_refl].
      - split; [apply Qle_refl|]. apply Qnot_lt_le. intros H%lt_Qlt. congruence. }
    destruct Hcur as [Hc Hi]. repeat split.
    + destruct Hm as [->|Hm]; [|right; by right].
      unfold cur'. destruct (Py.lt item cur); [right; by left|by left].
    + by eapply Qle_trans.
    + intros y [->|Hy]%elem_of_cons; [by eapply Qle_trans|by apply Hall].
Qed.

(** [min] returns an item of the list that no item is smaller than. *)
Lemma min_spec (l : list Q) (m : Q) :
  Py.min l = Ok m -> m ∈ l /\ forall y, y ∈ l -> (m <= y)%Q.
Proof.
  destruct l as [|x xs]; [discriminate|]. simpl. intros [= <-].
  destruct (fold_min_spec xs x) as (Hm & Hle & Hall). split.
  - destruct Hm as [->|Hm]; [by left|by right].
  - intros y [->|Hy]%elem_of_cons; [done|by apply Hall].
Qed.

Lemma parse_features_Forall2 fs gn l :
  _parse_features fs gn = Ok l ->
  Forall2 (fun f s => parse_feature gn f = Ok s) fs l.
Proof.
  revert l. induction fs as [|f fs IH]; intros l; simpl.
  - intros [= <-]. constructor.
  - intros (li & Hli & (l' & Hl' & [= <-])%bind_Ok)%bind_Ok.
    constructor; [done|by apply IH].
Qed.

Lemma parse_feature_global_node f s :
  parse_feature true f = Ok s ->
  exists d, shape f = [d] /\
            s = {| shape := [d + 1; 1]; data := data f ++ [1 # 2]%Q |}.
Proof.
  unfold parse_feature, cat, unsqueeze1.
  destruct f as [[|d [|d' ds]] dt]; simpl; try discriminate.
  intros [= <-]. by exists d.
Qed.

Lemma parse_feature_plain f s :
  parse_feature false f = Ok s ->
  exists d ds, shape f = d :: ds /\
               s = {| shape := d :: 1 :: ds; data := data f |}.
Proof.
  unfold parse_feature, unsqueeze1.
  destruct f as [[|d ds] dt]; simpl; try discriminate.
  intros [= <-]. by exists d, ds.
Qed.

(** C8: what a successful construction stores in [features].  With
    [pre_convolved=True] the features are stored as given.  Otherwise,
    with [global_node=True] every stored feature is the one-dimensional
    input feature with the scalar 0.5 as one more, last entry, as a
    column, and [n_nodes] is the length of the input feature plus one;
    with [global_node=False] every stored feature has the entries of the
    input feature, with a size-one axis after the first. *)
Theorem stored_features fs ls l2 ar gn pc self :
  __init__ fs ls l2 ar gn pc = Ok self ->
  (pc = true -> features self = fs) /\
  (pc = false -> gn = true ->
     Forall2 (fun f s => exists d, shape f = [d] /\
                s = {| shape := [d + 1; 1]; data := data f ++ [1 # 2]%Q |})
       fs (features self) /\
     exists f0 d, fs !! 0 = Some f0 /\ shape f0 = [d] /\ n_nodes self = d + 1) /\
  (pc = false -> gn = false ->
     Forall2 (fun f s => exists d ds, shape f = d :: ds /\
                s = {| shape := d :: 1 :: ds; data := data f |})
       fs (features self)).
Proof.
  intros Hinit.
  apply init_Ok in Hinit as (_ & Hfs & _ & (s0 & Hs0 & Hnn) & _).
  repeat split.
  - intros ->. by injection Hfs as <-.
  - subst pc gn. apply parse_features_Forall2 in Hfs.
    eapply Forall2_impl; [exact Hfs|]. intros f s. apply parse_feature_global_node.
  - subst pc gn. apply parse_features_Forall2 in Hfs.
    destruct (Forall2_lookup_r _ _ _ _ _ Hfs Hs0) as (f0 & Hf0 & Hp).
    apply parse_feature_global_node in Hp as (d & Hd & ->).
    exists f0, d. repeat split; try done.
    unfold shape0 in Hnn. simpl in Hnn. by injection Hnn as <-.
  - intros -> ->. apply parse_features_Forall2 in Hfs.
    eapply Forall2_impl; [exact Hfs|]. intros f s. apply parse_feature_plain.
Qed.

Lemma stored_features_witness :
  __init__ Sample.features Sample.labels (Some Sample.labels_2) true true false
    = Ok Sample.cycling /\
  Forall2 (fun f s => exists d, shape f = [d] /\
             s = {| shape := [d + 1; 1]; data := data f ++ [1 # 2]%Q |})
    Sample.features (features Sample.cycling) /\
  exists f0 d, Sample.features !! 0 = Some f0 /\ shape f0 = [d] /\
               n_nodes Sample.cycling = d + 1.
Proof.
  split; [reflexivity|].
  apply (stored_features Sample.features Sample.labels (Some Sample.labels_2)
           true true false Sample.cycling); reflexivity.
Defined.

Example stored_features_plain :
  features (Sample.build (__init__ Sample.features Sample.labels None true false false)) =
    [ {| shape := [2; 1]; data := [1; 2]%Q |};
      {| shape := [2; 1]; data := [3; 4]%Q |};
      {| shape := [2; 1]; data := [5; 6]%Q |} ].
Proof. reflexivity. Qed.

(** C9: a successful construction does not store the labels it receives
    but every label plus [m], where [m] is the smallest absolute value
    among the labels; and the shift does not make the labels non-negative:
    there are labels, with a negative entry of magnitude greater than [m],
    whose stored form has a negative entry. *)
Theorem stored_labels_shifted :
  (forall fs ls l2 ar gn pc self,
     __init__ fs ls l2 ar gn pc = Ok self ->
     exists m,
       m ∈ map Qabs ls /\ (forall x, x ∈ ls -> (m <= Qabs x)%Q) /\
       labels self = map (fun x => (x + m)%Q) ls) /\
  (exists fs ls l2 ar gn pc self m x,
     __init__ fs ls l2 ar gn pc = Ok self /\
     Py.min (map Qabs ls) = Ok m /\
     x ∈ ls /\ (x < 0)%Q /\ (m < Qabs x)%Q /\
     (x + m)%Q ∈ labels self /\ (x + m < 0)%Q).
Proof.
  split.
  - intros fs ls l2 ar gn pc self Hinit.
    apply init_Ok in Hinit as (_ & _ & (m & Hm & Hls) & _).
    apply min_spec in Hm as [Hin Hmin]. exists m. repeat split; try done.
    intros x Hx. apply Hmin. change (map Qabs ls) with (Qabs <$> ls).
    by apply list_elem_of_fmap_2.
  - exists Sample.features, Sample.labels, (Some Sample.labels_2), true, true, false,
      Sample.cycling, 1%Q, (-3)%Q.
    repeat split; try reflexivity.
    + unfold Sample.labels. by left.
    + simpl. by left.
Qed.

Lemma stored_labels_shifted_witness :
  __init__ Sample.features Sample.labels None false true false = Ok Sample.one_pass /\
  exists m,
    m ∈ map Qabs Sample.labels /\
    (forall x, x ∈ Sample.labels -> (m <= Qabs x)%Q) /\
    labels Sample.one_pass = map (fun x => (x + m)%Q) Sample.labels.
Proof.
  split; [reflexivity|].
  apply (proj1 stored_labels_shifted Sample.features Sample.labels None false true false).
  reflexivity.
Defined.

Example stored_labels_sample :
  labels Sample.cycling = [-3 + 1; 1 + 1; 2 + 1]%Q /\
  Py.min (map Qabs Sample.labels) = Ok 1%Q.
Proof. split; reflexivity. Qed.

Lemma run_reachable ops self : reachable self -> reachable (run ops self).
Proof.
  revert self. induction ops as [|o ops IH]; intros self Hr; simpl; [done|].
  apply IH. by constructor.
Qed.

Lemma step_n_samples o self : n_samples (step o self) = n_samples self.
Proof.
  destruct o as [| |rnd]; simpl.
  - by destruct (next_sample_state self) as [v ->].
  - done.
  - unfold shuffle_samples. simpl.
    repeat (match goal with
            | |- context [match ?r with Ok _ => _ | Raise _ => _ end] => destruct r
            | |- context [match ?r with Some _ => _ | None => _ end] => destruct r
            end; simpl); done.
Qed.

Lemma run_n_samples ops self : n_samples (run ops self) = n_samples self.
Proof.
  revert self. induction ops as [|o ops IH]; intros self; simpl; [done|].
  by rewrite IH, step_n_samples.
Qed.

(** C2, as the code has it: [__init__] raises [AssertionError] whenever
    [len(features) != len(labels)].  When [labels_2] is given with
    [len(labels_2) != len(labels)] the construction never succeeds, and it
    raises [AssertionError] whenever the same arguments without [labels_2]
    construct a generator (the check of [labels_2] comes last, after the
    features are parsed and the labels shifted).  After a successful
    construction [len(features) == len(labels) == n_samples], and
    [len(labels_2) == n_samples] when [labels_2] is present; this is
    preserved by every sequence of [next_sample], [reset_generator] and
    [shuffle_samples]. *)
Theorem init_checks_lengths fs ls l2 ar gn pc :
  (length fs <> length ls -> __init__ fs ls l2 ar gn pc = Raise AssertionError) /\
  (forall l, l2 = Some l -> length l <> length ls ->
     (forall self, __init__ fs ls l2 ar gn pc <> Ok self) /\
     (forall self, __init__ fs ls None ar gn pc = Ok self ->
        __init__ fs ls l2 ar gn pc = Raise AssertionError)) /\
  (forall self, __init__ fs ls l2 ar gn pc = Ok self ->
     lengths_agree self /\ n_samples self = length ls /\
     forall ops, lengths_agree (run ops self) /\
                 n_samples (run ops self) = n_samples self).
Proof.
  split; [|split].
  - intros Hne. unfold __init__, Py.assert.
    by destruct (Nat.eqb_spec (length fs) (length ls)).
  - intros l -> Hne. split.
    + intros self Hinit.
      apply init_Ok in Hinit as (_ & _ & _ & _ & _ & _ & _ & _ & _ & Hlen). done.
    + intros self Hinit. unfold __init__ in *.
      apply bind_Ok in Hinit as ([] & H1 & Hinit).
      apply bind_Ok in Hinit as (sf & H2 & Hinit).
      apply bind_Ok in Hinit as (m & H3 & Hinit).
      apply bind_Ok in Hinit as (f0 & H4 & Hinit).
      apply bind_Ok in Hinit as (nn & H5 & _).
      rewrite H1; simpl. rewrite H2; simpl. rewrite H3; simpl.
      rewrite H4; simpl. rewrite H5; simpl.
      unfold Py.assert. by destruct (Nat.eqb_spec (length l) (length ls)).
  - intros self Hinit.
    assert (Hr : reachable self) by (by econstructor).
    split; [by apply reachable_invariant|].
    split; [by apply init_Ok in Hinit as (_ & _ & _ & _ & ? & _)|].
    intros ops. split; [|apply run_n_samples].
    by apply reachable_invariant, run_reachable.
Qed.

(** C2, as stated, fails on an empty data set: with no features, no
    labels and a [labels_2] of length one, [len(labels_2) != len(labels)]
    and [__init__] raises [ValueError], from [min] over no labels, before
    it reaches the check of [labels_2]. *)
Lemma init_empty_data_set :
  (length [0%Z] <> length (@nil Q)) /\
  (__init__ [] [] (Some [0%Z]) true true false = Raise ValueError) /\
  (__init__ [] [] (Some [0%Z]) true true false <> Raise AssertionError).
Proof. split; [|split]; [discriminate|reflexivity|discriminate]. Qed.

Lemma init_checks_lengths_witness :
  __init__ (drop 1 Sample.features) Sample.labels None true true false
    = Raise AssertionError /\
  __init__ Sample.features Sample.labels (Some [0%Z]) true true false
    = Raise AssertionError /\
  lengths_agree
    (run [NextSample; ShuffleSamples Sample.draws; NextSample; ResetGenerator]
       Sample.cycling).
Proof.
  split; [|split].
  - apply (init_checks_lengths (drop 1 Sample.features) Sample.labels None true true false).
    simpl. lia.
  - apply (init_checks_lengths Sample.features Sample.labels (Some [0%Z]) true true false)
      with (l := [0%Z])
           (self := Sample.build
                      (__init__ Sample.features Sample.labels None true true false)).
    + reflexivity.
    + simpl. lia.
    + reflexivity.
  - apply (init_checks_lengths Sample.features Sample.labels (Some Sample.labels_2)
             true true false).
    reflexivity.
Defined.

(** ** [R_or_S] *)

(** C7: [R_or_S(MIC, boundary)] has the length of [MIC], and its [i]-th
    element is 0 if [2 ** MIC[i] <= boundary] and 1 otherwise. *)
Theorem R_or_S_elementwise (num : Type) (pow2 : num -> Q)
    (MIC : list num) (boundary : Q) :
  length (R_or_S num pow2 MIC boundary) = length MIC /\
  forall (i : nat) (x : num),
    MIC !! i = Some x ->
    ((pow2 x <= boundary)%Q -> R_or_S num pow2 MIC boundary !! i = Some 0%Z) /\
    (~ (pow2 x <= boundary)%Q -> R_or_S num pow2 MIC boundary !! i = Some 1%Z).
Proof.
  unfold R_or_S. change (map ?f MIC) with (f <$> MIC).
  split; [by rewrite length_fmap|].
  intros i x Hi. rewrite list_lookup_fmap, Hi. simpl.
  split; intros H.
  - apply Qle_bool_iff in H. by rewrite H.
  - destruct (Qle_bool (pow2 x) boundary) eqn:E; [|done].
    by apply Qle_bool_iff in E.
Qed.

Lemma R_or_S_elementwise_witness :
  [-4; -3; 0; 1]%Z !! 1 = Some (-3)%Z /\
  ((pow2_int (-3) <= 1 # 8)%Q ->
     R_or_S Z pow2_int [-4; -3; 0; 1]%Z (1 # 8) !! 1 = Some 0%Z) /\
  (~ (pow2_int (-3) <= 1 # 8)%Q ->
     R_or_S Z pow2_int [-4; -3; 0; 1]%Z (1 # 8) !! 1 = Some 1%Z).
Proof.
  split; [reflexivity|].
  apply (proj2 (R_or_S_elementwise Z pow2_int [-4; -3; 0; 1]%Z (1 # 8)) 1 (-3)%Z).
  reflexivity.
Defined.

Example R_or_S_sample :
  R_or_S Z pow2_int [-4; -3; -2; 0; 1]%Z (1 # 8) = [0; 0; 1; 1; 1]%Z /\
  map (fun b => R_or_S Z pow2_int [-5; -4; 0]%Z (snd b)) breakpoints =
    [[0; 0; 0]; [0; 0; 1]; [0; 1; 1]; [0; 0; 1]]%Z.
Proof. split; reflexivity. Qed.

(** ** [MetricAccumulator] *)

Import MetricAccumulator.

Lemma and_then_Ok {A B} (m : method A) (k : A -> method B) self self' b :
  and_then m k self = (self', Ok b) ->
  exists a self1, m self = (self1, Ok a) /\ k a self1 = (self', Ok b).
Proof.
  unfold and_then. destruct (m self) as [self1 [a|e]]; [|discriminate].
  intros H. by exists a, self1.
Qed.

Lemma append_value_Ok s e self self' :
  append_value s e self = (self', Ok tt) ->
  exists v, e self = Ok v /\ self' = append s v self.
Proof.
  unfold append_value, and_then, eval. destruct (e self) as [v|err]; [|discriminate].
  intros [= <-]. by exists v.
Qed.
Lemma add_Ok er self self' :
  add er self = (self', Ok tt) ->
  exists v0 v1 v2 v3 g0 g1 g2 g3,
    Py.getitem er 0 = Ok v0 /\ Py.getitem er 1 = Ok v1 /\
    Py.getitem er 2 = Ok v2 /\ Py.getitem er 3 = Ok v3 /\
    metric_gradient self (training_data_loss self ++ [v0]) = Ok g0 /\
    metric_gradient self (training_data_acc self ++ [v1]) = Ok g1 /\
    metric_gradient self (testing_data_loss self ++ [v2]) = Ok g2 /\
    metric_gradient self (testing_data_acc self ++ [v3]) = Ok g3 /\
    self' = mk (training_data_loss self ++ [v0]) (training_data_acc self ++ [v1])
               (testing_data_loss self ++ [v2]) (testing_data_acc self ++ [v3])
               (training_data_loss_grads self ++ [g0])
               (training_data_acc_grads self ++ [g1])
               (testing_data_loss_grads self ++ [g2])
               (testing_data_acc_grads self ++ [g3])
               (gradient_batch self).
Proof.
  unfold add, _all_grads. intros H.
  apply and_then_Ok in H as ([] & s1 & (v0 & H0 & ->)%append_value_Ok & H).
  apply and_then_Ok in H as ([] & s2 & (v1 & H1 & ->)%append_value_Ok & H).
  apply and_then_Ok in H as ([] & s3 & (v2 & H2 & ->)%append_value_Ok & H).
  apply and_then_Ok in H as ([] & s4 & (v3 & H3 & ->)%append_value_Ok & H).
  apply and_then_Ok in H as ([] & s5 & (g0 & G0 & ->)%append_value_Ok & H).
  apply and_then_Ok in H as ([] & s6 & (g1 & G1 & ->)%append_value_Ok & H).
  apply and_then_Ok in H as ([] & s7 & (g2 & G2 & ->)%append_value_Ok & H).
  apply append_value_Ok in H as (g3 & G3 & ->).
  exists v0, v1, v2, v3, g0, g1, g2, g3.
  repeat split; try done.
Qed.

Lemma slice_from_trailing_window (x : list Q) (batch : Z) :
  (0 < batch)%Z ->
  Py.slice_from x (- batch) = trailing_window (Z.to_nat batch) x.
Proof.
  intros Hb. unfold Py.slice_from, trailing_window.
  destruct (Z.ltb_spec (- batch) 0) as [_|?]; [|lia].
  f_equal. lia.
Qed.

Lemma slice_from_zero (x : list Q) : Py.slice_from x (- 0) = x.
Proof.
  unfold Py.slice_from. simpl. rewrite Z.min_l by lia. done.
Qed.

Lemma getitem_int_first (data : list Q) :
  Py.getitem_int data 0 =
    match head data with Some v => Ok v | None => Raise IndexError end.
Proof. by destruct data. Qed.

Lemma getitem_int_last (data : list Q) :
  Py.getitem_int data (-1) =
    match last data with Some v => Ok v | None => Raise IndexError end.
Proof.
  unfold Py.getitem_int. simpl. rewrite last_lookup.
  destruct data as [|d data]; [done|].
  destruct (Z.ltb_spec (-1 + Z.of_nat (length (d :: data))) 0) as [H|_].
  { simpl in H. lia. }
  unfold Py.getitem.
  replace (Z.to_nat (-1 + Z.of_nat (length (d :: data))))
    with (Nat.pred (length (d :: data))) by (simpl; lia).
  done.
Qed.

(** For a positive [gradient_batch], [metric_gradient] is the slope over
    the trailing window. *)
Lemma metric_gradient_window self (x : list Q) :
  (0 < gradient_batch self)%Z ->
  metric_gradient self x =
    match window_slope (trailing_window (Z.to_nat (gradient_batch self)) x) with
    | Some v => Ok v
    | None => Raise IndexError
    end.
Proof.
  intros Hb. unfold metric_gradient. rewrite slice_from_trailing_window by done.
  set (w := trailing_window _ x).
  rewrite getitem_int_last, getitem_int_first. unfold window_slope.
  destruct (last w) as [final|] eqn:El, (head w) as [first|] eqn:Eh; simpl; done.
Qed.

Lemma slice_from_nonempty (x : list Q) (batch : Z) :
  (0 <= batch)%Z -> x <> [] -> Py.slice_from x (- batch) <> [].
Proof.
  intros Hb Hx. destruct (Z.eq_dec batch 0%Z) as [->|Hne].
  - by rewrite slice_from_zero.
  - rewrite slice_from_trailing_window by lia. unfold trailing_window.
    intros H. apply (f_equal length) in H. rewrite length_drop in H. simpl in H.
    destruct x; [done|]. simpl in H. lia.
Qed.

Lemma metric_gradient_Ok self (x : list Q) :
  (0 <= gradient_batch self)%Z -> x <> [] ->
  exists g, metric_gradient self x = Ok g.
Proof.
  intros Hb Hx. unfold metric_gradient.
  pose proof (slice_from_nonempty x _ Hb Hx) as Hw.
  set (w := Py.slice_from x _) in *.
  rewrite getitem_int_last, getitem_int_first.
  destruct w as [|d w]; [done|]. simpl.
  destruct (last (d :: w)) as [final|] eqn:El; simpl; [eauto|].
  by apply last_None in El.
Qed.

Lemma and_then_intro {A B} (m : method A) (k : A -> method B) self self1 a :
  m self = (self1, Ok a) -> and_then m k self = k a self1.
Proof. intros H. unfold and_then. by rewrite H. Qed.

Lemma append_value_intro s e self v :
  e self = Ok v -> append_value s e self = (append s v self, Ok tt).
Proof. intros H. unfold append_value, and_then, eval. by rewrite H. Qed.

Lemma snoc_nonempty {A} (l : list A) (v : A) : l ++ [v] <> [].
Proof. by destruct l. Qed.

Lemma add_total er self :
  4 <= length er -> (0 <= gradient_batch self)%Z ->
  exists self', add er self = (self', Ok tt).
Proof.
  intros Her Hb.
  destruct (getitem_lt er 0) as (v0 & _ & H0); [lia|].
  destruct (getitem_lt er 1) as (v1 & _ & H1); [lia|].
  destruct (getitem_lt er 2) as (v2 & _ & H2); [lia|].
  destruct (getitem_lt er 3) as (v3 & _ & H3); [lia|].
  unfold add.
  rewrite (and_then_intro _ _ _ _ _ (append_value_intro _ _ _ _ H0)).
  rewrite (and_then_intro _ _ _ _ _ (append_value_intro _ _ _ _ H1)).
  rewrite (and_then_intro _ _ _ _ _ (append_value_intro _ _ _ _ H2)).
  rewrite (and_then_intro _ _ _ _ _ (append_value_intro _ _ _ _ H3)).
  unfold _all_grads.
  repeat match goal with
  | |- context [and_then (append_value ?s (fun self => metric_gradient self (?f self))) _ ?S] =>
      let g := fresh "g" in
      let G := fresh "G" in
      destruct (metric_gradient_Ok S (f S)) as [g G];
      [ exact Hb | simpl; apply snoc_nonempty
      | rewrite (and_then_intro _ _ _ _ _
                   (append_value_intro s (fun self => metric_gradient self (f self)) S g G)) ]
  end.
  match goal with
  | |- context [append_value ?s (fun self => metric_gradient self (?f self)) ?S] =>
      destruct (metric_gradient_Ok S (f S)) as [g3 G3];
      [ exact Hb | simpl; apply snoc_nonempty
      | rewrite (append_value_intro s (fun self => metric_gradient self (f self)) S g3 G3) ]
  end.
  eauto.
Qed.

Lemma add_all_lengths results self self' :
  add_all results self = (self', Ok tt) ->
  forall s, length (get s self') = length (get s self) + length results.
Proof.
  revert self. induction results as [|er results IH]; intros self; simpl.
  - intros [= <-] s. lia.
  - intros ([] & self1 & Hadd & Hrest)%and_then_Ok s.
    rewrite (IH _ Hrest).
    apply add_Ok in Hadd
      as (v0 & v1 & v2 & v3 & g0 & g1 & g2 & g3 & _ & _ & _ & _ & _ & _ & _ & _ & ->).
    destruct s; simpl; rewrite length_app; simpl; lia.
Qed.

Lemma add_all_total results self :
  (0 <= gradient_batch self)%Z ->
  Forall (fun er => 4 <= length er) results ->
  exists self', add_all results self = (self', Ok tt).
Proof.
  intros Hb HF. revert self Hb.
  induction HF as [|er results Her _ IH]; intros self Hb; simpl; [eauto|].
  destruct (add_total er self Her Hb) as [self1 Hadd].
  rewrite (and_then_intro _ _ _ _ _ Hadd). apply IH.
  apply add_Ok in Hadd
    as (v0 & v1 & v2 & v3 & g0 & g1 & g2 & g3 & _ & _ & _ & _ & _ & _ & _ & _ & ->).
  done.
Qed.

(** C4: a call of [add] that returns appends one element to each of the
    eight series and leaves their earlier entries as they were; [add]
    returns whenever [epoch_results] has the four entries it reads and
    [gradient_batch] is not negative; so after [N] calls on a new
    accumulator each of the eight series has length [N]. *)
Theorem add_appends_one_to_each_series :
  (forall er self self',
     add er self = (self', Ok tt) ->
     forall s, exists v, get s self' = get s self ++ [v]) /\
  (forall er self,
     4 <= length er -> (0 <= gradient_batch self)%Z ->
     exists self', add er self = (self', Ok tt)) /\
  (forall results gb self',
     add_all results (MetricAccumulator.__init__ gb) = (self', Ok tt) ->
     forall s, length (get s self') = length results) /\
  (forall results gb,
     (0 <= gb)%Z -> Forall (fun er => 4 <= length er) results ->
     exists self', add_all results (MetricAccumulator.__init__ gb) = (self', Ok tt)).
Proof.
  split; [|split; [|split]].
  - intros er self self' Hadd s.
    apply add_Ok in Hadd
      as (v0 & v1 & v2 & v3 & g0 & g1 & g2 & g3 & _ & _ & _ & _ & _ & _ & _ & _ & ->).
    destruct s; simpl; eauto.
  - apply add_total.
  - intros results gb self' Hall s.
    rewrite (add_all_lengths _ _ _ Hall). by destruct s.
  - intros results gb Hb HF. by apply add_all_total.
Qed.

Lemma add_appends_one_to_each_series_witness :
  (exists self',
     add Sample.epoch_4 Sample.recorded = (self', Ok tt) /\
     forall s, exists v, get s self' = get s Sample.recorded ++ [v]) /\
  (forall s, length (get s Sample.recorded) = length Sample.epochs).
Proof.
  destruct add_appends_one_to_each_series as (Happ & Htot & Hlen & _).
  split.
  - destruct (Htot Sample.epoch_4 Sample.recorded) as [self' Hadd].
    + simpl. lia.
    + simpl. lia.
    + exists self'. split; [exact Hadd|]. exact (Happ _ _ _ Hadd).
  - apply (Hlen Sample.epochs 2%Z). reflexivity.
Defined.

(** C5: for a positive [gradient_batch], the value a call of [add]
    appends to a gradient series is the slope of the metric series it
    belongs to over the trailing window: the last [gradient_batch] recorded
    epochs, or all of them if fewer have been recorded; the slope is the
    change between the first and the last entry of the window divided by
    the number of epochs in the window, rounded to two decimals. *)
Theorem grads_are_trailing_window_slopes er self self' :
  (0 < gradient_batch self)%Z ->
  add er self = (self', Ok tt) ->
  forall g, g ∈ grads_series ->
    exists v,
      get g self' = get g self ++ [v] /\
      window_slope
        (trailing_window (Z.to_nat (gradient_batch self)) (get (metric_of g) self'))
        = Some v.
Proof.
  intros Hb Hadd g Hg.
  apply add_Ok in Hadd
    as (v0 & v1 & v2 & v3 & g0 & g1 & g2 & g3 & _ & _ & _ & _ & G0 & G1 & G2 & G3 & ->).
  rewrite metric_gradient_window in G0, G1, G2, G3 by done.
  unfold grads_series in Hg.
  repeat (apply elem_of_cons in Hg as [->|Hg]); [| | | |by apply elem_of_nil in Hg].
  - destruct (window_slope _) as [w|] eqn:E in G0; [|done].
    injection G0 as ->. by exists g0.
  - destruct (window_slope _) as [w|] eqn:E in G1; [|done].
    injection G1 as ->. by exists g1.
  - destruct (window_slope _) as [w|] eqn:E in G2; [|done].
    injection G2 as ->. by exists g2.
  - destruct (window_slope _) as [w|] eqn:E in G3; [|done].
    injection G3 as ->. by exists g3.
Qed.

Lemma grads_are_trailing_window_slopes_witness :
  (0 < gradient_batch Sample.recorded)%Z /\
  add Sample.epoch_4 Sample.recorded = (Sample.recorded_4, Ok tt) /\
  forall g, g ∈ grads_series ->
    exists v,
      get g Sample.recorded_4 = get g Sample.recorded ++ [v] /\
      window_slope
        (trailing_window (Z.to_nat (gradient_batch Sample.recorded))
           (get (metric_of g) Sample.recorded_4))
        = Some v.
Proof.
  assert (Hadd : add Sample.epoch_4 Sample.recorded = (Sample.recorded_4, Ok tt))
    by (vm_compute; reflexivity).
  split; [reflexivity|]. split; [exact Hadd|].
  apply (grads_are_trailing_window_slopes Sample.epoch_4 Sample.recorded
           Sample.recorded_4); [reflexivity|exact Hadd].
Defined.

Example trailing_window_sample :
  trailing_window 2 [1; 3; 7]%Q = [3; 7]%Q /\
  trailing_window 5 [1; 3]%Q = [1; 3]%Q /\
  window_slope [3; 7]%Q = Some (200 # 100)%Q.
Proof. repeat split. Qed.

Example recorded_gradients :
  training_data_loss Sample.recorded = [9 # 10; 7 # 10; 13 # 20]%Q /\
  training_data_loss_grads Sample.recorded = [0 # 100; -10 # 100; -2 # 100]%Q /\
  testing_data_acc_grads Sample.recorded = [0 # 100; 350 # 100; 300 # 100]%Q.
Proof. repeat split. Qed.

Example round2_samples :
  Py.round2 (1 # 3) = (33 # 100)%Q /\
  Py.round2 (1 # 8) = (12 # 100)%Q /\
  Py.round2 (3 # 8) = (38 # 100)%Q /\
  Py.round2 (- (1 # 3)) = (-33 # 100)%Q.
Proof. repeat split. Qed.

(** Outside the domain of C4 and C5: a window size of 0 takes every
    recorded epoch, and [add] stops at the first entry that
    [epoch_results] lacks, after the appends that precede it. *)
Example metric_gradient_batch_zero :
  metric_gradient (MetricAccumulator.__init__ 0) [1; 3; 7]%Q = Ok (200 # 100)%Q /\
  metric_gradient (MetricAccumulator.__init__ (-1)) [1]%Q = Raise IndexError /\
  add [1; 2]%Q (MetricAccumulator.__init__ 10) =
    (MetricAccumulator.mk [1]%Q [2]%Q [] [] [] [] [] [] 10, Raise IndexError).
Proof. repeat split. Qed.

(** ** Models *)

Import Model.

Example forward_sample :
  returns (VanillaNN.forward Sample.net Sample.keep_all Sample.keep_all Sample.column)
    (1196 # 100) /\
  returns (VanillaNN.forward Sample.net' Sample.keep_all Sample.keep_all Sample.column)
    (2396 # 100).
Proof. split; vm_compute; reflexivity. Qed.

(** C6, as the code has it: the forward pass of each model is three
    stacked linear layers.  The first two are each followed by the
    nonlinearity and by dropout; the third is followed by the nonlinearity
    only, on its first entry.  [MICPredictor] returns next to that output
    the activation that leaves the second dropout. *)
Theorem forward_three_linear_layers self keep1 keep2 x :
  VanillaNN.forward self keep1 keep2 x =
    (h1 ← hidden_layer (VanillaNN.linear1 self) (VanillaNN.dropout_rate self) keep1
            (transpose x);
     h2 ← hidden_layer (VanillaNN.linear2 self) (VanillaNN.dropout_rate self) keep2 h1;
     output_layer (VanillaNN.linear3 self) h2) /\
  MICPredictor.forward self keep1 keep2 x =
    (h1 ← hidden_layer (VanillaNN.linear1 self) (VanillaNN.dropout_rate self) keep1
            (transpose x);
     h2 ← hidden_layer (VanillaNN.linear2 self) (VanillaNN.dropout_rate self) keep2 h1;
     out ← output_layer (VanillaNN.linear3 self) h2;
     Ok (out, h2)).
Proof.
  unfold VanillaNN.forward, MICPredictor.forward, hidden_layer, output_layer.
  destruct (apply_linear (VanillaNN.linear1 self) (transpose x)) as [y1|e]; simpl; [|done].
  destruct (dropout _ keep1 _) as [h1|e]; simpl; [|done].
  destruct (apply_linear (VanillaNN.linear2 self) h1) as [y2|e]; simpl; [|done].
  destruct (dropout _ keep2 _) as [h2|e]; simpl; [|done].
  destruct (apply_linear (VanillaNN.linear3 self) h2) as [y3|e]; simpl; [|done].
  by destruct (item00 y3).
Qed.

(** C6, as stated, fails: two networks with the same first two linear
    layers and the same dropout rate, on the same input and the same
    dropout draws, return different outputs, so the forward pass is not
    made of those two layers alone. *)
Lemma forward_uses_linear3 :
  VanillaNN.linear1 Sample.net = VanillaNN.linear1 Sample.net' /\
  VanillaNN.linear2 Sample.net = VanillaNN.linear2 Sample.net' /\
  VanillaNN.dropout_rate Sample.net = VanillaNN.dropout_rate Sample.net' /\
  returns (VanillaNN.forward Sample.net Sample.keep_all Sample.keep_all Sample.column)
    (1196 # 100) /\
  returns (VanillaNN.forward Sample.net' Sample.keep_all Sample.keep_all Sample.column)
    (2396 # 100) /\
  (VanillaNN.forward Sample.net Sample.keep_all Sample.keep_all Sample.column
     <> VanillaNN.forward Sample.net' Sample.keep_all Sample.keep_all Sample.column) /\
  (MICPredictor.forward Sample.net Sample.keep_all Sample.keep_all Sample.column
     <> MICPredictor.forward Sample.net' Sample.keep_all Sample.keep_all Sample.column).
Proof.
  split; [reflexivity|]. split; [reflexivity|]. split; [reflexivity|].
  split; [vm_compute; reflexivity|]. split; [vm_compute; reflexivity|].
  split; vm_compute; discriminate.
Qed.

(** * Further properties *)

(** ** [DataGenerator]: cursor, passes and shuffles *)

Import DataGenerator.

Lemma shuffle_samples_keeps rnd self :
  n (fst (shuffle_samples rnd self)) = n self /\
  auto_reset_generator (fst (shuffle_samples rnd self)) = auto_reset_generator self /\
  n_nodes (fst (shuffle_samples rnd self)) = n_nodes self.
Proof.
  unfold shuffle_samples. simpl.
  repeat (match goal with
          | |- context [match ?r with Ok _ => _ | Raise _ => _ end] => destruct r
          | |- context [match ?r with Some _ => _ | None => _ end] => destruct r
          end; simpl); done.
Qed.

Lemma step_auto_reset o self :
  auto_reset_generator (step o self) = auto_reset_generator self.
Proof.
  destruct o as [| |rnd]; simpl.
  - by destruct (next_sample_state self) as [v ->].
  - done.
  - apply shuffle_samples_keeps.
Qed.

Lemma reachable_n_samples_pos self : reachable self -> 0 < n_samples self.
Proof.
  induction 1 as [fs ls l2 ar gn pc self Hinit|o self Hr IH].
  - by apply init_lengths_agree in Hinit as [_ ?].
  - by rewrite step_n_samples.
Qed.

Lemma next_sample_auto_reset_here self :
  lengths_agree self -> auto_reset_generator self = true ->
  n self < n_samples self ->
  next_sample self =
    (set_n ((n self + 1) mod n_samples self) self, sample_at self (n self)).
Proof.
  intros Hinv Har Hn.
  pose proof (next_sample_auto_reset self (n self) Hinv Har Hn) as H.
  by rewrite set_n_same in H.
Qed.

Lemma next_sample_no_reset_here self :
  auto_reset_generator self = false ->
  next_sample self = (set_n (n self + 1) self, sample_at self (n self)).
Proof.
  intros Har. pose proof (next_sample_no_reset self (n self) Har) as H.
  by rewrite set_n_same in H.
Qed.

(** The cursor of an auto-reset generator stays below [n_samples]. *)
Lemma reachable_cursor self :
  reachable self -> auto_reset_generator self = true -> n self < n_samples self.
Proof.
  induction 1 as [fs ls l2 ar gn pc self Hinit|o self Hr IH].
  - intros _. destruct (init_lengths_agree _ _ _ _ _ _ _ Hinit) as [_ Hpos].
    apply init_Ok in Hinit as (_ & _ & _ & _ & _ & -> & _). done.
  - rewrite step_auto_reset, step_n_samples. intros Har. specialize (IH Har).
    pose proof (reachable_invariant self Hr) as [Hinv _].
    destruct o as [| |rnd]; simpl.
    + rewrite next_sample_auto_reset_here by done. simpl.
      apply Nat.mod_upper_bound. lia.
    + lia.
    + by destruct (shuffle_samples_keeps rnd self) as (-> & _).
Qed.

(** X1: an auto-reset generator never raises: on every generator a program
    can hold, [next_sample] returns the sample at the cursor. *)
Theorem auto_reset_never_raises self :
  reachable self -> auto_reset_generator self = true ->
  exists s,
    snd (next_sample self) = Ok s /\ is_sample_at self (n self) s /\
    n (fst (next_sample self)) = (n self + 1) mod n_samples self.
Proof.
  intros Hr Har.
  pose proof (reachable_cursor self Hr Har) as Hn.
  pose proof (reachable_invariant self Hr) as [Hinv _].
  rewrite next_sample_auto_reset_here by done. simpl.
  destruct (sample_at_lt self (n self) Hinv Hn) as (s & Hs & His).
  by exists s.
Qed.

Lemma auto_reset_never_raises_witness :
  reachable Data.started /\ auto_reset_generator Data.started = true /\
  exists s,
    snd (next_sample Data.started) = Ok s /\
    is_sample_at Data.started (n Data.started) s /\
    n (fst (next_sample Data.started))
      = (n Data.started + 1) mod n_samples Data.started.
Proof.
  assert (Hr : reachable Data.started).
  { apply (reachable_step NextSample Sample.cycling).
    apply (reachable_init Sample.features Sample.labels (Some Sample.labels_2)
             true true false). reflexivity. }
  split; [exact Hr|]. split; [reflexivity|].
  apply (auto_reset_never_raises Data.started Hr). reflexivity.
Defined.

Lemma next_samples_from self k j :
  lengths_agree self -> j + k <= n_samples self ->
  snd (next_samples k (set_n j self)) = map (sample_at self) (seq j k).
Proof.
  intros Hinv. revert j. induction k as [|k IH]; intros j Hjk; [done|].
  assert (Hnext : exists j', next_sample (set_n j self) = (set_n j' self, sample_at self j)
                             /\ (k <> 0 -> j' = j + 1)).
  { destruct (auto_reset_generator self) eqn:Har.
    - rewrite next_sample_auto_reset by (try done; lia).
      eexists. split; [done|]. intros Hk. apply Nat.mod_small. lia.
    - rewrite next_sample_no_reset by done. by eexists. }
  destruct Hnext as (j' & Hnext & Hj').
  cbn [next_samples]. rewrite Hnext.
  destruct k as [|k]; [done|].
  rewrite Hj' by done. specialize (IH (j + 1)).
  destruct (next_samples (S k) (set_n (j + 1) self)) as [self2 rs].
  cbn [snd] in *. rewrite IH by lia. cbn [seq map]. by rewrite Nat.add_1_r.
Qed.

Lemma pass_after_reset self :
  lengths_agree self ->
  Epoch.pass (reset_generator self) =
    map (sample_at self) (seq 0 (n_samples self)).
Proof.
  intros Hinv. unfold Epoch.pass, reset_generator. simpl.
  by apply next_samples_from.
Qed.

(** X2: [reset_generator] starts a pass over: from every generator a
    program can hold, also an exhausted one, the [n_samples] calls that
    follow a reset return the samples at the indices 0 to
    [n_samples - 1], in order. *)
Theorem reset_generator_restarts self :
  reachable self ->
  Forall2 (fun i r => exists s, r = Ok s /\ is_sample_at self i s)
    (seq 0 (n_samples self)) (Epoch.pass (reset_generator self)).
Proof.
  intros [Hinv _]%reachable_invariant.
  rewrite pass_after_reset by done.
  change (map ?f ?l) with (f <$> l). apply Forall2_fmap_r, Forall_Forall2_diag.
  apply Forall_forall. intros i Hi%elem_of_seq.
  destruct (sample_at_lt self i Hinv) as (s & Hs & His); [lia|]. by exists s.
Qed.

Lemma reset_generator_restarts_witness :
  reachable Data.exhausted /\
  Forall2 (fun i r => exists s, r = Ok s /\ is_sample_at Data.exhausted i s)
    (seq 0 (n_samples Data.exhausted))
    (Epoch.pass (reset_generator Data.exhausted)).
Proof.
  assert (Hr : reachable Data.exhausted).
  { apply (run_reachable (replicate 5 NextSample) Sample.one_pass).
    apply (reachable_init Sample.features Sample.labels None false true false).
    reflexivity. }
  split; [exact Hr|]. apply (reset_generator_restarts Data.exhausted Hr).
Defined.

Lemma sample_at_shuffled rnd self self' j p :
  lengths_agree self -> _index self ≡ₚ seq 0 (n_samples self) ->
  shuffle_samples rnd self = (self', Ok tt) ->
  _index self' !! j = Some p ->
  sample_at self' j = sample_at self p.
Proof.
  intros Hinv Hidx Hrun Hj.
  destruct (shuffle_samples_Ok rnd self Hinv Hidx)
    as (self'' & Hrun' & _ & _ & HFf & HFl & HF2).
  rewrite Hrun in Hrun'. injection Hrun' as <-.
  destruct (moved_of_Forall2 _ _ _ _ _ HFf Hj) as (f & Hf & Hf').
  destruct (moved_of_Forall2 _ _ _ _ _ HFl Hj) as (l & Hl & Hl').
  unfold sample_at, Py.getitem. rewrite Hf, Hf', Hl, Hl'.
  destruct (labels_2 self) as [l2|].
  - destruct HF2 as (l2' & -> & HF2).
    destruct (moved_of_Forall2 _ _ _ _ _ HF2 Hj) as (c & Hc & Hc').
    by rewrite Hc, Hc'.
  - by rewrite HF2.
Qed.

(** X3: a pass after a shuffle returns what a pass before it returns, in
    another order: every sample once, none lost and none repeated. *)
Theorem pass_after_shuffle_Permutation rnd self :
  reachable self ->
  Epoch.pass (reset_generator (fst (shuffle_samples rnd self)))
    ≡ₚ Epoch.pass (reset_generator self).
Proof.
  intros Hr. destruct (reachable_invariant self Hr) as [Hinv Hidx].
  destruct (shuffle_samples_Ok rnd self Hinv Hidx)
    as (self' & Hrun & Hi & Hns & _).
  assert (Hr' : reachable self').
  { replace self' with (step (ShuffleSamples rnd) self) by (simpl; by rewrite Hrun).
    by constructor. }
  destruct (reachable_invariant self' Hr') as [Hinv' Hidx'].
  rewrite Hrun. simpl. rewrite !pass_after_reset by done.
  rewrite Hns.
  assert (Heq : map (sample_at self') (seq 0 (n_samples self))
                = map (sample_at self) (_index self')).
  { change (map ?f ?l) with (f <$> l). apply list_eq. intros j.
    rewrite !list_lookup_fmap.
    destruct (decide (j < n_samples self)) as [Hj|Hj].
    - rewrite lookup_seq_lt by done. simpl.
      destruct (lookup_lt_is_Some_2 (_index self') j) as [p Hp].
      { by rewrite Hidx', Hns, length_seq. }
      rewrite Hp. simpl. f_equal. by eapply sample_at_shuffled.
    - rewrite lookup_seq_ge by lia.
      rewrite lookup_ge_None_2; [done|].
      rewrite Hidx', Hns, length_seq. lia. }
  rewrite Heq. change (map ?f ?l) with (f <$> l).
  by rewrite Hidx', Hns.
Qed.

Lemma pass_after_shuffle_Permutation_witness :
  reachable Data.started /\
  Epoch.pass (reset_generator (fst (shuffle_samples Sample.draws Data.started)))
    ≡ₚ Epoch.pass (reset_generator Data.started).
Proof.
  assert (Hr : reachable Data.started).
  { apply (reachable_step NextSample Sample.cycling).
    apply (reachable_init Sample.features Sample.labels (Some Sample.labels_2)
             true true false). reflexivity. }
  split; [exact Hr|].
  apply (pass_after_shuffle_Permutation Sample.draws Data.started Hr).
Defined.

(** X4: a shuffle in the middle of a pass keeps the cursor: the call that
    follows returns the sample that has moved to the cursor's position,
    the one at index [p] before the shuffle, where [p] is the entry of
    the shuffled [_index] at the cursor. *)
Theorem next_sample_after_shuffle rnd self :
  reachable self -> n self < n_samples self ->
  exists p s,
    _index (fst (shuffle_samples rnd self)) !! n self = Some p /\
    snd (next_sample (fst (shuffle_samples rnd self))) = Ok s /\
    is_sample_at self p s.
Proof.
  intros Hr Hn. destruct (reachable_invariant self Hr) as [Hinv Hidx].
  destruct (shuffle_samples_Ok rnd self Hinv Hidx)
    as (self' & Hrun & Hi & Hns & _).
  assert (Hr' : reachable self').
  { replace self' with (step (ShuffleSamples rnd) self) by (simpl; by rewrite Hrun).
    by constructor. }
  destruct (reachable_invariant self' Hr') as [Hinv' Hidx'].
  destruct (shuffle_samples_keeps rnd self) as (Hn' & _).
  rewrite Hrun in *. simpl in *.
  destruct (lookup_lt_is_Some_2 (_index self') (n self)) as [p Hp].
  { by rewrite Hidx', Hns, length_seq. }
  assert (Hp' : p < n_samples self).
  { eapply index_in_range; [by rewrite <- Hns|]. by eapply list_elem_of_lookup_2. }
  destruct (sample_at_lt self p Hinv Hp') as (s & Hs & His).
  exists p, s. repeat split; try done.
  assert (Hcall : snd (next_sample self') = sample_at self' (n self')).
  { destruct (auto_reset_generator self') eqn:Har.
    - rewrite next_sample_auto_reset_here; [done|done|done|]. by rewrite Hn', Hns.
    - by rewrite next_sample_no_reset_here. }
  rewrite Hcall, Hn'. by rewrite (sample_at_shuffled rnd self self' (n self) p).
Qed.

Lemma next_sample_after_shuffle_witness :
  reachable Data.started /\ n Data.started < n_samples Data.started /\
  exists p s,
    _index (fst (shuffle_samples Sample.draws Data.started)) !! n Data.started
      = Some p /\
    snd (next_sample (fst (shuffle_samples Sample.draws Data.started))) = Ok s /\
    is_sample_at Data.started p s.
Proof.
  assert (Hr : reachable Data.started).
  { apply (reachable_step NextSample Sample.cycling).
    apply (reachable_init Sample.features Sample.labels (Some Sample.labels_2)
             true true false). reflexivity. }
  assert (Hn : n Data.started < n_samples Data.started) by (simpl; lia).
  split; [exact Hr|]. split; [exact Hn|].
  apply (next_sample_after_shuffle Sample.draws Data.started Hr Hn).
Defined.

Lemma parse_features_total (gn : bool) fs :
  Forall (fun f => if gn then exists d, shape f = [d] else shape f <> []) fs ->
  exists l, _parse_features fs gn = Ok l /\
            Forall (fun s => shape s <> []) l /\ length l = length fs.
Proof.
  induction 1 as [|f fs Hf _ (l & Hl & Hs & Hlen)]; simpl.
  - by exists (@nil Tensor).
  - assert (Hp : exists s, parse_feature gn f = Ok s /\ shape s <> []).
    { unfold parse_feature, cat, unsqueeze1. destruct gn.
      - destruct Hf as [d ->]. simpl. by eexists.
      - destruct (shape f) as [|d ds]; [done|]. by eexists. }
    destruct Hp as (s & -> & Hs'). rewrite Hl. simpl.
    exists (s :: l). repeat split; [by constructor|simpl; by rewrite Hlen].
Qed.

Lemma parse_feature_accepts (gn : bool) f s :
  parse_feature gn f = Ok s ->
  if gn then exists d, shape f = [d] else shape f <> [].
Proof.
  destruct gn.
  - intros (d & Hd & _)%parse_feature_global_node. by exists d.
  - intros (d & ds & Hd & _)%parse_feature_plain. by rewrite Hd.
Qed.

(** X5: what [__init__] accepts.  A generator is constructed exactly when
    the features and the labels have the same length, there is at least
    one label, the features can be stored (with [pre_convolved], the
    first one has a first axis; otherwise every feature is
    one-dimensional when a global node is added, and not zero-dimensional
    when it is not), and [labels_2], when given, has the length of the
    labels. *)
Theorem init_succeeds_iff fs ls l2 ar gn pc :
  (exists self, __init__ fs ls l2 ar gn pc = Ok self) <->
  length fs = length ls /\ ls <> [] /\ Epoch.storable gn pc fs /\
  match l2 with Some l => length l = length ls | None => True end.
Proof.
  split.
  - intros [self Hinit].
    apply init_Ok in Hinit
      as (Hlen & Hfs & (m & Hm & _) & (f0 & Hf0 & Hnn) & _ & _ & _ & _ & _ & Hl2).
    repeat split; try done.
    + by destruct ls.
    + unfold Epoch.storable. destruct pc.
      * injection Hfs as Hfs. rewrite <- Hfs in Hf0. unfold shape0, Py.getitem in Hnn.
        destruct (shape f0) as [|d ds] eqn:E; [done|]. by exists f0, d, ds.
      * apply parse_features_Forall2 in Hfs. clear -Hfs.
        induction Hfs as [|f s fs' l' Hp _ IH]; constructor; [|done].
        by eapply parse_feature_accepts.
  - intros (Hlen & Hls & Hst & Hl2). unfold __init__, Py.assert.
    rewrite Hlen, Nat.eqb_refl. simpl.
    assert (Hsf : exists sf f0 d,
               (if pc then Ok fs else _parse_features fs gn) = Ok sf /\
               Py.getitem sf 0 = Ok f0 /\ shape0 f0 = Ok d).
    { unfold Epoch.storable in Hst. destruct pc.
      - destruct Hst as (f0 & d & ds & Hf0 & Hsh).
        exists fs, f0, d. repeat split; [by apply getitem_Ok|].
        unfold shape0. by rewrite Hsh.
      - destruct (parse_features_total gn fs Hst) as (l & Hl & Hs & Hll).
        destruct l as [|f0 l]; [destruct fs, ls; simpl in *; done|].
        apply Forall_cons in Hs as [Hs0 _].
        destruct (shape f0) as [|d ds] eqn:E; [done|].
        exists (f0 :: l), f0, d. repeat split; [done|].
        unfold shape0. by rewrite E. }
    destruct Hsf as (sf & f0 & d & -> & Hf0 & Hd). simpl.
    destruct ls as [|x ls]; [done|]. simpl. rewrite Hf0. simpl. rewrite Hd. simpl.
    destruct l2 as [l|]; simpl; [|by eexists].
    simpl in Hl2. rewrite Hl2, Nat.eqb_refl. simpl. by eexists.
Qed.

(** ** [MetricAccumulator]: what [add] reads, and what it leaves behind
    when it raises *)

Import MetricAccumulator.

Lemma getitem_take {A} (l : list A) (k i : nat) :
  i < k -> Py.getitem (take k l) i = Py.getitem l i.
Proof. intros Hi. unfold Py.getitem. by rewrite lookup_take_lt. Qed.

(** X6: [add] reads the first four entries of [epoch_results] only: the
    validation loss and accuracy that the training loop also passes are
    not recorded. *)
Theorem add_ignores_validation_results er self :
  add er self = add (take 4 er) self.
Proof.
  unfold add, and_then, append_value, eval.
  by rewrite !getitem_take by lia.
Qed.

(** X7: with fewer than four entries in [epoch_results], [add] raises
    [IndexError] and leaves the accumulator half updated: the metric
    series that come before the missing entry have got their value, the
    other metric series and the four gradient series have got none. *)
Theorem add_short_results er self :
  length er < 4 ->
  exists self',
    add er self = (self', Raise IndexError) /\
    (forall i s, MetricLog.metric_series !! i = Some s ->
       get s self' = get s self ++ option_list (er !! i)) /\
    (forall g, g ∈ grads_series -> get g self' = get g self).
Proof.
  intros Hlen.
  destruct er as [|a [|b [|c [|d er]]]]; simpl in Hlen; try lia;
    (eexists; split; [reflexivity|]; split;
     [ intros [|[|[|[|i]]]] s [= <-]; simpl; by rewrite ?app_nil_r
     | intros g Hg; unfold grads_series in Hg;
       repeat (apply elem_of_cons in Hg as [->|Hg]); try done;
       by apply elem_of_nil in Hg ]).
Qed.

Lemma add_short_results_witness :
  length [1; 2]%Q < 4 /\
  exists self',
    add [1; 2]%Q Sample.recorded = (self', Raise IndexError) /\
    (forall i s, MetricLog.metric_series !! i = Some s ->
       get s self' = get s Sample.recorded ++ option_list ([1; 2]%Q !! i)) /\
    (forall g, g ∈ grads_series -> get g self' = get g Sample.recorded).
Proof.
  assert (Hlen : length [1; 2]%Q < 4) by (simpl; lia).
  split; [exact Hlen|]. apply (add_short_results [1; 2]%Q Sample.recorded Hlen).
Defined.

(** ** [MetricAccumulator]: gradients and their averages *)

Lemma lt_false_Qle (x y : Q) : Py.lt x y = false <-> (y <= x)%Q.
Proof.
  split.
  - intros H. apply Qnot_lt_le. intros Hlt%lt_Qlt. congruence.
  - intros H. destruct (Py.lt x y) eqn:E; [|done].
    apply lt_Qlt in E. by apply Qle_not_lt in H.
Qed.

Lemma round_half_even_near (t : Q) :
  (Qabs (inject_Z (Py.round_half_even t) - t) <= 1 # 2)%Q.
Proof.
  unfold Py.round_half_even.
  pose proof (Qfloor_le t) as Hlo. pose proof (Qlt_floor t) as Hhi.
  set (f := Qfloor t) in *.
  rewrite inject_Z_plus in Hhi. change (inject_Z 1) with 1%Q in Hhi.
  apply Qabs_Qle_condition.
  destruct (Py.lt (t - inject_Z f) (1 # 2)) eqn:E1.
  { apply lt_Qlt in E1. split; lra. }
  apply lt_false_Qle in E1.
  assert (Hup : (- (1 # 2) <= inject_Z (f + 1) - t <= 1 # 2)%Q).
  { rewrite inject_Z_plus. change (inject_Z 1) with 1%Q. split; lra. }
  destruct (Py.lt (1 # 2) (t - inject_Z f)) eqn:E2; [done|].
  apply lt_false_Qle in E2.
  destruct (Z.even f); [split; lra|done].
Qed.

(** [round(q, 2)] is within half a hundredth of [q]. *)
Lemma round2_near (q : Q) : (Qabs (Py.round2 q - q) <= 1 # 200)%Q.
Proof.
  unfold Py.round2.
  pose proof (round_half_even_near (q * inject_Z 100)) as H.
  set (z := inject_Z (Py.round_half_even (q * inject_Z 100))) in *.
  change (inject_Z 100) with 100%Q in *.
  apply Qabs_Qle_condition in H as [H1 H2].
  apply Qabs_Qle_condition.
  assert (Hdiv : (z / 100 == z * (1 # 100))%Q) by (unfold Qdiv; reflexivity).
  rewrite Hdiv. split; lra.
Qed.

(** X8: a recorded gradient is the exact slope over the trailing window,
    up to half a hundredth. *)
Theorem metric_gradient_near_slope self (x : list Q) :
  (0 < gradient_batch self)%Z -> x <> [] ->
  exists first final g,
    head (trailing_window (Z.to_nat (gradient_batch self)) x) = Some first /\
    last (trailing_window (Z.to_nat (gradient_batch self)) x) = Some final /\
    metric_gradient self x = Ok g /\
    (Qabs (g - (final - first)
               / inject_Z (Z.of_nat
                   (length (trailing_window (Z.to_nat (gradient_batch self)) x))))
       <= 1 # 200)%Q.
Proof.
  intros Hb Hx. rewrite metric_gradient_window by done.
  pose proof (slice_from_nonempty x (gradient_batch self)) as Hw.
  rewrite slice_from_trailing_window in Hw by done.
  specialize (Hw ltac:(lia) Hx).
  set (w := trailing_window _ x) in *. unfold window_slope.
  destruct (head w) as [first|] eqn:Eh.
  2:{ by destruct w. }
  destruct (last w) as [final|] eqn:El.
  2:{ by apply last_None in El. }
  exists first, final. eexists. simpl.
  split; [done|]. split; [done|]. split; [done|]. apply round2_near.
Qed.

Lemma metric_gradient_near_slope_witness :
  (0 < gradient_batch Sample.recorded)%Z /\
  training_data_loss Sample.recorded <> [] /\
  exists first final g,
    head (trailing_window (Z.to_nat (gradient_batch Sample.recorded))
            (training_data_loss Sample.recorded)) = Some first /\
    last (trailing_window (Z.to_nat (gradient_batch Sample.recorded))
            (training_data_loss Sample.recorded)) = Some final /\
    metric_gradient Sample.recorded (training_data_loss Sample.recorded) = Ok g /\
    (Qabs (g - (final - first)
               / inject_Z (Z.of_nat
                   (length (trailing_window
                              (Z.to_nat (gradient_batch Sample.recorded))
                              (training_data_loss Sample.recorded)))))
       <= 1 # 200)%Q.
Proof.
  assert (Hb : (0 < gradient_batch Sample.recorded)%Z) by reflexivity.
  assert (Hx : training_data_loss Sample.recorded <> []) by discriminate.
  split; [exact Hb|]. split; [exact Hx|].
  apply (metric_gradient_near_slope Sample.recorded _ Hb Hx).
Defined.








Lemma fold_sum_acc (l : list Q) (acc : Q) :
  (fold_left Qplus l acc == acc + Builtins.sum l)%Q.
Proof.
  unfold Builtins.sum. revert acc. induction l as [|v l IH]; intros acc; simpl.
  - lra.
  - rewrite (IH (acc + v)%Q), (IH (0 + v)%Q). lra.
Qed.

Lemma sum_bounds (l : list Q) (lo hi : Q) :
  Forall (fun v => (lo <= v <= hi)%Q) l ->
  (inject_Z (Z.of_nat (length l)) * lo <= Builtins.sum l
   <= inject_Z (Z.of_nat (length l)) * hi)%Q.
Proof.
  induction 1 as [|v l [Hlo Hhi] _ [IHlo IHhi]].
  - unfold Builtins.sum. cbn [length fold_left]. change (inject_Z (Z.of_nat 0)) with 0%Q.
    split; lra.
  - assert (Hs : (Builtins.sum (v :: l) == v + Builtins.sum l)%Q).
    { unfold Builtins.sum at 1. simpl. rewrite fold_sum_acc. lra. }
    assert (Hn : (inject_Z (Z.of_nat (length (v :: l)))
                  == inject_Z (Z.of_nat (length l)) + 1)%Q).
    { simpl length. rewrite Nat2Z.inj_succ. unfold Z.succ.
      rewrite inject_Z_plus. reflexivity. }
    rewrite Hs, Hn. split; lra.
Qed.

(** The mean that [avg_gradient] returns, and when it cannot. *)
Lemma avg_gradient_spec self (x : list Q) :
  (0 <= gradient_batch self)%Z ->
  (x = [] -> MetricLog.avg_gradient self x = Throw ZeroDivisionError) /\
  (x <> [] ->
     exists a,
       MetricLog.avg_gradient self x = Return a /\
       forall lo hi,
         Forall (fun v => (lo <= v <= hi)%Q)
           (Py.slice_from x (- gradient_batch self)) ->
         (lo <= a <= hi)%Q).
Proof.
  intros Hb. unfold MetricLog.avg_gradient, Builtins.div. split.
  - intros ->. unfold Py.slice_from. by rewrite drop_nil.
  - intros Hx. pose proof (slice_from_nonempty x _ Hb Hx) as Hw.
    set (w := Py.slice_from x _) in *.
    destruct (Nat.eqb_spec (length w) 0) as [H0|Hn].
    { by destruct w. }
    eexists. split; [done|]. intros lo hi HF.
    destruct (sum_bounds w lo hi HF) as [Hlo Hhi].
    assert (Hpos : (0 < inject_Z (Z.of_nat (length w)))%Q).
    { change 0%Q with (inject_Z 0). rewrite <- Zlt_Qlt. lia. }
    split.
    + apply Qle_shift_div_l; [done|]. by rewrite Qmult_comm.
    + apply Qle_shift_div_r; [done|]. by rewrite Qmult_comm.
Qed.



Lemma metric_gradient_singleton_batch self (v g : Q) :
  metric_gradient self [v] = Ok g -> (0 <= gradient_batch self)%Z.
Proof.
  intros H. destruct (Z.lt_ge_cases (gradient_batch self) 0) as [Hb|Hb]; [|done].
  exfalso. revert H. unfold metric_gradient, Py.slice_from. simpl.
  destruct (Z.ltb_spec (- gradient_batch self) 0) as [?|_]; [lia|].
  intros H.
  replace (Z.to_nat (Z.min (- gradient_batch self) (Z.of_nat 1))) with 1 in H by lia.
  discriminate H.
Qed.

Lemma add_all_gradient_batch results self self' :
  add_all results self = (self', Ok tt) ->
  gradient_batch self' = gradient_batch self.
Proof.
  revert self. induction results as [|er results IH]; intros self; simpl.
  - by intros [= <-].
  - intros ([] & self1 & Hadd & Hrest)%and_then_Ok.
    rewrite (IH _ Hrest).
    apply add_Ok in Hadd
      as (v0 & v1 & v2 & v3 & g0 & g1 & g2 & g3 & _ & _ & _ & _ & _ & _ & _ & _ & ->).
    done.
Qed.

(** X11: [log_gradients] needs a recorded epoch.  On a new accumulator it
    raises [ZeroDivisionError]; after one or more calls of [add] it
    logs the four averages, with [last_epoch = max(0, epoch -
    gradient_batch)]. *)
Theorem log_gradients_needs_an_epoch results gb self epoch :
  add_all results (MetricAccumulator.__init__ gb) = (self, Ok tt) ->
  (results = [] ->
     MetricLog.log_gradients self epoch = Throw ZeroDivisionError) /\
  (results <> [] ->
     exists a0 a1 a2 a3,
       MetricLog.log_gradients self epoch =
         Return (MetricLog.mkMessage epoch (Z.max 0 (epoch - gb)) [a0; a1; a2; a3])).
Proof.
  intros Hall. split.
  - intros ->. injection Hall as <-.
    unfold MetricLog.log_gradients, MetricLog.avg_gradient, Py.slice_from. simpl.
    by rewrite drop_nil.
  - intros Hne.
    pose proof (add_all_gradient_batch _ _ _ Hall) as Hgb. simpl in Hgb.
    pose proof (add_all_lengths _ _ _ Hall) as Hlen.
    assert (Hb : (0 <= gradient_batch self)%Z).
    { rewrite Hgb. destruct results as [|er results]; [done|]. simpl in Hall.
      apply and_then_Ok in Hall as ([] & self1 & Hadd & _).
      apply add_Ok in Hadd
        as (v0 & v1 & v2 & v3 & g0 & g1 & g2 & g3 & _ & _ & _ & _ & G0 & _).
      by apply metric_gradient_singleton_batch in G0. }
    assert (Hsome : forall g, g ∈ grads_series -> get g self <> []).
    { intros g _ Hg. specialize (Hlen g). rewrite Hg in Hlen.
      destruct results; [done|]. destruct g; simpl in Hlen; lia. }
    unfold MetricLog.log_gradients.
    destruct (proj2 (avg_gradient_spec self (training_data_loss_grads self) Hb))
      as (a0 & -> & _).
    { apply (Hsome Training_data_loss_grads). unfold grads_series. set_solver. }
    destruct (proj2 (avg_gradient_spec self (training_data_acc_grads self) Hb))
      as (a1 & -> & _).
    { apply (Hsome Training_data_acc_grads). unfold grads_series. set_solver. }
    destruct (proj2 (avg_gradient_spec self (testing_data_loss_grads self) Hb))
      as (a2 & -> & _).
    { apply (Hsome Testing_data_loss_grads). unfold grads_series. set_solver. }
    destruct (proj2 (avg_gradient_spec self (testing_data_acc_grads self) Hb))
      as (a3 & -> & _).
    { apply (Hsome Testing_data_acc_grads). unfold grads_series. set_solver. }
    simpl. rewrite Hgb. by exists a0, a1, a2, a3.
Qed.

Lemma log_gradients_needs_an_epoch_witness :
  add_all Sample.epochs (MetricAccumulator.__init__ 2) = (Sample.recorded, Ok tt) /\
  exists a0 a1 a2 a3,
    MetricLog.log_gradients Sample.recorded 3 =
      Return (MetricLog.mkMessage 3 (Z.max 0 (3 - 2)) [a0; a1; a2; a3]).
Proof.
  assert (Hall : add_all Sample.epochs (MetricAccumulator.__init__ 2)
                 = (Sample.recorded, Ok tt)) by (vm_compute; reflexivity).
  split; [exact Hall|].
  apply (log_gradients_needs_an_epoch Sample.epochs 2 Sample.recorded 3 Hall).
  discriminate.
Defined.

(** ** utils.py: [write_epoch_results] *)

Lemma string_append_assoc (a b c : string) :
  ((a ++ b) ++ c = a ++ (b ++ c))%string.
Proof.
  induction a as [|ch a IH]; [reflexivity|].
  change (String ch ((a ++ b) ++ c) = String ch (a ++ (b ++ c)))%string.
  by f_equal.
Qed.

Lemma string_append_nil_r (a : string) : (a ++ EmptyString = a)%string.
Proof.
  induction a as [|ch a IH]; [reflexivity|].
  change (String ch (a ++ EmptyString) = String ch a)%string. by f_equal.
Qed.

Section write_epoch_results_properties.

Variable epoch_t result_t : Type.
Variable str_epoch : epoch_t -> string.
Variable str_result : result_t -> string.


Lemma write_one_lookup epoch results path (files : gmap string string) :
  Utils.write_epoch_results epoch_t result_t str_epoch str_result epoch results path files !! path =
    Some (default Utils.header (files !! path)
          ++ (Utils.line epoch_t result_t str_epoch str_result epoch results ++ Utils.newline))%string.
Proof.
  unfold Utils.write_epoch_results. rewrite lookup_insert_eq.
  destruct (files !! path) as [c|] eqn:E.
  - by rewrite E.
  - by rewrite lookup_insert_eq.
Qed.

Lemma write_one_other epoch results path other (files : gmap string string) :
  other <> path -> Utils.write_epoch_results epoch_t result_t str_epoch str_result epoch results path files !! other = files !! other.
Proof.
  intros Hne. unfold Utils.write_epoch_results.
  rewrite lookup_insert_ne by done.
  destruct (files !! path); [done|]. by rewrite lookup_insert_ne.
Qed.

(** X12: the summary file after any number of calls.  A file that was
    missing holds the header once, then one line per call, in the order
    of the calls; a file that was there keeps what it held, without a
    header, followed by the new lines.  No other file changes. *)
Theorem write_epoch_results_appends epochs path (files : gmap string string) :
  epochs <> [] ->
  Utils.write_all epoch_t result_t str_epoch str_result epochs path files !! path =
    Some (default Utils.header (files !! path) ++ Utils.lines epoch_t result_t str_epoch str_result epochs)%string /\
  forall other, other <> path ->
    Utils.write_all epoch_t result_t str_epoch str_result epochs path files !! other = files !! other.
Proof.
  intros Hne. split.
  - revert files. induction epochs as [|e epochs IH]; intros files; [done|].
    unfold Utils.write_all. simpl.
    destruct epochs as [|e' epochs].
    + simpl. rewrite write_one_lookup. by rewrite string_append_nil_r.
    + unfold Utils.write_all in IH. rewrite IH by done.
      rewrite write_one_lookup. simpl. f_equal.
      by rewrite !string_append_assoc.
  - intros other Ho. revert files.
    induction epochs as [|e epochs IH]; intros files; [done|].
    unfold Utils.write_all. simpl.
    destruct epochs as [|e' epochs].
    + simpl. by apply write_one_other.
    + unfold Utils.write_all in IH. rewrite IH by done.
      by apply write_one_other.
Qed.

End write_epoch_results_properties.

Lemma write_epoch_results_appends_witness :
  Data.summaries <> [] /\
  Utils.write_all nat nat Data.str_digit Data.str_digit Data.summaries
    "summary.tsv" ∅ !! "summary.tsv" =
    Some (default Utils.header ((∅ : gmap string string) !! "summary.tsv")
          ++ Utils.lines nat nat Data.str_digit Data.str_digit Data.summaries)%string.
Proof.
  assert (Hne : Data.summaries <> []) by discriminate.
  split; [exact Hne|].
  apply (proj1 (write_epoch_results_appends nat nat Data.str_digit Data.str_digit
                  Data.summaries "summary.tsv" ∅ Hne)).
Defined.

(** ** utils.py: [load_labels_2] and [country_accuracy] *)

Lemma fold_max_spec (xs : list Q) (cur : Q) :
  let m := fold_left (fun cur item => if Py.lt cur item then item else cur) xs cur in
  (m = cur \/ m ∈ xs) /\ (cur <= m)%Q /\ forall y, y ∈ xs -> (y <= m)%Q.
Proof.
  revert cur. induction xs as [|item xs IH]; intros cur; simpl.
  - split; [by left|]. split; [apply Qle_refl|]. intros y Hy. by apply elem_of_nil in Hy.
  - set (cur' := if Py.lt cur item then item else cur).
    destruct (IH cur') as (Hm & Hle & Hall).
    assert (Hcur : (cur <= cur')%Q /\ (item <= cur')%Q).
    { unfold cur'. destruct (Py.lt cur item) eqn:E.
      - apply lt_Qlt in E. split; [by apply Qlt_le_weak|apply Qle_refl].
      - apply lt_false_Qle in E. split; [apply Qle_refl|done]. }
    destruct Hcur as [Hc Hi]. repeat split.
    + destruct Hm as [->|Hm]; [|right; by right].
      unfold cur'. destruct (Py.lt cur item); [right; by left|by left].
    + by eapply Qle_trans.
    + intros y [->|Hy]%elem_of_cons; [by eapply Qle_trans|by apply Hall].
Qed.

(** [max] returns an item of the list that no item is larger than. *)
Lemma max_spec (l : list Q) (m : Q) :
  Builtins.max l = Ok m -> m ∈ l /\ forall y, y ∈ l -> (y <= m)%Q.
Proof.
  destruct l as [|x xs]; [discriminate|]. simpl. intros [= <-].
  destruct (fold_max_spec xs x) as (Hm & Hle & Hall). split.
  - destruct Hm as [->|Hm]; [by left|by right].
  - intros y [->|Hy]%elem_of_cons; [done|by apply Hall].
Qed.

(** [index] returns the first position of an item equal to [v]. *)
Lemma index_spec (l : list Q) (v : Q) :
  (exists x, x ∈ l /\ (x == v)%Q) ->
  exists i x,
    Builtins.index l v = Ok i /\ l !! i = Some x /\ (x == v)%Q /\
    forall j y, j < i -> l !! j = Some y -> ~ (y == v)%Q.
Proof.
  induction l as [|a l IH]; intros (x & Hx & Hxv).
  - by apply elem_of_nil in Hx.
  - simpl. destruct (Qeq_bool a v) eqn:E.
    + apply Qeq_bool_iff in E. exists 0, a. repeat split; try done.
      intros j y Hj. lia.
    + assert (Hne : ~ (a == v)%Q).
      { intros H%Qeq_bool_iff. congruence. }
      apply elem_of_cons in Hx as [->|Hx]; [done|].
      destruct IH as (i & x' & -> & Hi & Hx' & Hfirst); [by exists x|].
      exists (S i), x'. repeat split; try done.
      intros [|j] y Hj Hy; simpl in Hy.
      * by injection Hy as <-.
      * apply (Hfirst j y); [lia|done].
Qed.

(** What [transform] returns on a row. *)
Lemma transform_spec (row : list Q) :
  (row = [] -> Utils.transform row = Raise ValueError) /\
  (row <> [] ->
     exists c x,
       Utils.transform row = Ok [Z.of_nat c] /\ row !! c = Some x /\
       (forall y, y ∈ row -> (y <= x)%Q) /\
       (forall j y, j < c -> row !! j = Some y -> (y < x)%Q)).
Proof.
  split; [by intros ->|]. intros Hne. unfold Utils.transform.
  destruct (Builtins.max row) as [m|e] eqn:Em.
  2:{ by destruct row. }
  destruct (max_spec row m Em) as [Hin Hmax]. simpl.
  destruct (index_spec row m) as (c & x & -> & Hc & Hx & Hfirst).
  { exists m. split; [done|reflexivity]. }
  exists c, x. simpl. repeat split; try done.
  - intros y Hy. rewrite Hx. by apply Hmax.
  - intros j y Hj Hy. rewrite Hx.
    assert (Hle : (y <= m)%Q) by (apply Hmax; by eapply list_elem_of_lookup_2).
    apply Qle_lteq in Hle as [Hlt|Heq]; [done|].
    by apply Hfirst in Hy.
Qed.

(** X13: [transform] returns the position of the first largest entry of a
    row: no entry is larger than the one at that position, and every
    entry before it is smaller.  On an empty row it raises [ValueError]. *)
Theorem transform_first_maximum (row : list Q) :
  (row = [] -> Utils.transform row = Raise ValueError) /\
  (row <> [] ->
     exists c x,
       Utils.transform row = Ok [Z.of_nat c] /\ row !! c = Some x /\
       (forall y, y ∈ row -> (y <= x)%Q) /\
       (forall j y, j < c -> row !! j = Some y -> (y < x)%Q)).
Proof. exact (transform_spec row). Qed.

Lemma transform_first_maximum_witness :
  [1 # 2; 1 # 4; 1 # 2]%Q <> [] /\
  exists c x,
    Utils.transform [1 # 2; 1 # 4; 1 # 2]%Q = Ok [Z.of_nat c] /\
    [1 # 2; 1 # 4; 1 # 2]%Q !! c = Some x /\
    (forall y, y ∈ [1 # 2; 1 # 4; 1 # 2]%Q -> (y <= x)%Q) /\
    (forall j y, j < c -> [1 # 2; 1 # 4; 1 # 2]%Q !! j = Some y -> (y < x)%Q).
Proof.
  assert (Hne : [1 # 2; 1 # 4; 1 # 2]%Q <> []) by discriminate.
  split; [exact Hne|].
  apply (proj2 (transform_first_maximum [1 # 2; 1 # 4; 1 # 2]%Q) Hne).
Defined.

Lemma map_list_Forall2 {A B} (f : A -> result B) (l : list A) (ys : list B) :
  Builtins.map_list f l = Ok ys <-> Forall2 (fun x y => f x = Ok y) l ys.
Proof.
  revert ys. induction l as [|x l IH]; intros ys; simpl.
  - split.
    + intros [= <-]. constructor.
    + intros H. by inversion H.
  - split.
    + intros (y & Hy & (ys' & Hys & [= <-])%bind_Ok)%bind_Ok.
      constructor; [done|by apply IH].
    + intros H. inversion H as [|? y ? ys' Hy Hys]; subst.
      rewrite Hy. simpl. apply IH in Hys. by rewrite Hys.
Qed.

Lemma transform_in_range (row : list Q) :
  row <> [] ->
  exists c, Utils.transform row = Ok [Z.of_nat c] /\ c < length row.
Proof.
  intros Hne.
  destruct (proj2 (transform_spec row) Hne) as (c & x & Ht & Hc & _).
  exists c. split; [done|]. by eapply lookup_lt_Some.
Qed.

Lemma class_indices_Ok (t : list (list Q)) :
  t <> [] -> Forall (fun row => row <> []) t ->
  exists cs,
    Utils.class_indices t = Ok cs /\
    Forall2 (fun row c => (0 <= c < Z.of_nat (length row))%Z /\
                          Utils.transform row = Ok [c]) t cs.
Proof.
  intros Hne HF. unfold Utils.class_indices.
  assert (Hrows : exists cs,
            Builtins.map_list Utils.transform t = Ok ((fun c => [c]) <$> cs) /\
            Forall2 (fun row c => (0 <= c < Z.of_nat (length row))%Z /\
                                  Utils.transform row = Ok [c]) t cs).
  { clear Hne. induction HF as [|row t Hrow _ (cs & Hcs & HF2)].
    - by exists [].
    - destruct (transform_in_range row Hrow) as (c & Hc & Hlt).
      exists (Z.of_nat c :: cs). simpl. rewrite Hc. simpl. rewrite Hcs. simpl.
      split; [done|]. constructor; [|done]. split; [lia|done]. }
  destruct Hrows as (cs & -> & HF2). simpl.
  exists cs. split; [|done].
  destruct cs as [|c cs]; [by inversion HF2; subst|].
  simpl. f_equal. f_equal. clear. induction cs as [|c' cs IH]; simpl; [done|].
  by rewrite IH.
Qed.

Section load_labels_2_properties.

Variable torch_load : string -> outcome (list (list Q)).
Variable path_join : string -> string -> string.

(** X14: [load_labels_2] refuses flags that are equal with [ValueError],
    before it loads anything.  With flags that differ it loads the
    training and the testing file of the one kind, [countries] or
    [families], and turns every row of either tensor into the position of
    its first largest entry. *)
Theorem load_labels_2_class_indices data_dir (countries families : bool) :
  (countries = families ->
     Utils.load_labels_2 torch_load path_join data_dir countries families
       = Throw (Builtin ValueError)) /\
  (countries <> families ->
   forall training testing,
     let name := if countries then "countries"%string else "families"%string in
     torch_load (path_join data_dir ("training_" ++ name ++ ".pt")%string)
       = Return training ->
     torch_load (path_join data_dir ("testing_" ++ name ++ ".pt")%string)
       = Return testing ->
     training <> [] -> testing <> [] ->
     Forall (fun row => row <> []) training ->
     Forall (fun row => row <> []) testing ->
     exists cs_training cs_testing,
       Utils.load_labels_2 torch_load path_join data_dir countries families
         = Return (cs_training, cs_testing) /\
       Forall2 (fun row c => (0 <= c < Z.of_nat (length row))%Z /\
                             Utils.transform row = Ok [c]) training cs_training /\
       Forall2 (fun row c => (0 <= c < Z.of_nat (length row))%Z /\
                             Utils.transform row = Ok [c]) testing cs_testing).
Proof.
  split.
  - intros ->. unfold Utils.load_labels_2. by rewrite Bool.eqb_reflx.
  - intros Hne training testing name Htr Hte Hntr Hnte HFtr HFte.
    unfold Utils.load_labels_2.
    assert (E : Bool.eqb countries families = false).
    { by destruct countries, families. }
    rewrite E. fold name. rewrite Htr. simpl. rewrite Hte. simpl.
    destruct (class_indices_Ok training Hntr HFtr) as (a & -> & Ha).
    destruct (class_indices_Ok testing Hnte HFte) as (b & -> & Hb).
    simpl. by exists a, b.
Qed.

End load_labels_2_properties.

Lemma load_labels_2_class_indices_witness :
  true <> false /\
  exists cs_training cs_testing,
    Utils.load_labels_2 Data.torch_load Data.path_join "data" true false
      = Return (cs_training, cs_testing) /\
    Forall2 (fun row c => (0 <= c < Z.of_nat (length row))%Z /\
                          Utils.transform row = Ok [c]) Data.one_hot cs_training /\
    Forall2 (fun row c => (0 <= c < Z.of_nat (length row))%Z /\
                          Utils.transform row = Ok [c]) Data.scores cs_testing.
Proof.
  assert (Hne : true <> false) by discriminate.
  split; [exact Hne|].
  apply (proj2 (load_labels_2_class_indices Data.torch_load Data.path_join
                  "data" true false) Hne Data.one_hot Data.scores);
    try reflexivity; try discriminate;
    repeat (constructor; [discriminate|]); constructor.
Defined.

Lemma correct_at_spec (p : list (list Q)) (l : list Z) i row lab :
  p !! i = Some row -> l !! i = Some lab -> row <> [] ->
  exists b, Utils.correct_at p l i = Ok b /\
            (b = true <-> Utils.transform row = Ok [lab]).
Proof.
  intros Hp Hl Hrow. unfold Utils.correct_at, Py.getitem. rewrite Hp, Hl. simpl.
  destruct (transform_in_range row Hrow) as (c & Ht & _).
  unfold Utils.transform in *.
  destruct (Builtins.max row) as [m|]; [|done]. simpl in *.
  destruct (Builtins.index row m) as [c'|]; [|done]. simpl in *.
  eexists. split; [done|]. split.
  - intros H%Z.eqb_eq. by rewrite H.
  - intros [= H]. by apply Z.eqb_eq.
Qed.

Lemma select_length_le {A} (l : list A) (mask : list bool) :
  length (Builtins.select l mask) <= length l.
Proof.
  revert mask. induction l as [|x l IH]; intros [|[] mask]; simpl; try lia.
  - specialize (IH mask). lia.
  - specialize (IH mask). lia.
Qed.

Lemma select_all {A} (l : list A) (mask : list bool) :
  length l = length mask ->
  length (Builtins.select l mask) = length l <-> Forall (fun b => b = true) mask.
Proof.
  revert mask. induction l as [|x l IH]; intros [|b mask]; simpl; try done.
  intros [= Hlen]. destruct b; simpl.
  - rewrite Forall_cons. rewrite <- (IH mask Hlen). split; [intros [= ?]|intros [_ ?]]; [done|lia].
  - pose proof (select_length_le l mask). split; [lia|].
    intros [[=] _]%Forall_cons.
Qed.

Lemma select_none {A} (l : list A) (mask : list bool) :
  length l = length mask ->
  length (Builtins.select l mask) = 0 <-> Forall (fun b => b = false) mask.
Proof.
  revert mask. induction l as [|x l IH]; intros [|b mask]; simpl; try done.
  intros [= Hlen]. destruct b; simpl.
  - split; [lia|]. intros [[=] _]%Forall_cons.
  - rewrite Forall_cons. rewrite <- (IH mask Hlen). split; [done|by intros [_ ?]].
Qed.

(** A share of [k] out of [n], as a percentage. *)
Lemma percentage_bounds (k n : nat) :
  k <= n -> 0 < n ->
  let q := (inject_Z (Z.of_nat k) / inject_Z (Z.of_nat n) * 100)%Q in
  (0 <= q <= 100)%Q /\ ((q == 100)%Q <-> k = n) /\ ((q == 0)%Q <-> k = 0).
Proof.
  intros Hk Hn q.
  assert (HN : (0 < inject_Z (Z.of_nat n))%Q).
  { change 0%Q with (inject_Z 0). rewrite <- Zlt_Qlt. lia. }
  assert (HK : (0 <= inject_Z (Z.of_nat k) <= inject_Z (Z.of_nat n))%Q).
  { change 0%Q with (inject_Z 0). rewrite <- !Zle_Qle. lia. }
  destruct HK as [HK0 HKN].
  assert (Hinj : forall a b : nat, (inject_Z (Z.of_nat a) == inject_Z (Z.of_nat b))%Q -> a = b).
  { intros a b H. apply (proj1 (inject_Z_injective _ _)) in H. lia. }
  assert (Hk0 := Hinj k 0). assert (Hkn := Hinj k n). clear Hinj.
  change (inject_Z (Z.of_nat 0)) with 0%Q in Hk0.
  assert (Hzero : k = 0 -> (inject_Z (Z.of_nat k) == 0)%Q) by (by intros ->).
  assert (Hsame : k = n -> (inject_Z (Z.of_nat k) == inject_Z (Z.of_nat n))%Q)
    by (by intros ->).
  set (K := inject_Z (Z.of_nat k)) in *. set (N := inject_Z (Z.of_nat n)) in *.
  clearbody K N.
  assert (Hr : (K / N * N == K)%Q).
  { rewrite Qmult_comm. apply Qmult_div_r. lra. }
  assert (Hr0 : (0 <= K / N)%Q).
  { apply Qle_shift_div_l; [done|]. lra. }
  assert (Hr1 : (K / N <= 1)%Q).
  { apply Qle_shift_div_r; [done|]. lra. }
  unfold q. set (r := (K / N)%Q) in *. split; [split; lra|]. split.
  - split.
    + intros Hq. assert (Hone : (r == 1)%Q) by lra.
      rewrite Hone in Hr. apply Hkn. lra.
    + intros Heq. assert (Hone : (r == 1)%Q).
      { unfold r. rewrite (Hsame Heq). apply Qmult_inv_r. lra. }
      lra.
  - split.
    + intros Hq. assert (Hz : (r == 0)%Q) by lra.
      rewrite Hz in Hr. apply Hk0. lra.
    + intros Heq. assert (Hz : (r == 0)%Q).
      { unfold r. rewrite (Hzero Heq). unfold Qdiv. apply Qmult_0_l. }
      lra.
Qed.

Lemma map_list_total {A B} (f : A -> result B) (l : list A) :
  Forall (fun x => exists y, f x = Ok y) l ->
  exists ys, Builtins.map_list f l = Ok ys.
Proof.
  induction 1 as [|x l [y Hy] _ [ys Hys]]; simpl; [by eexists|].
  rewrite Hy. simpl. rewrite Hys. simpl. by eexists.
Qed.

Lemma correct_bool_Ok (p : list (list Q)) (l : list Z) :
  length p = length l -> Forall (fun row => row <> []) p ->
  exists mask,
    Builtins.map_list (Utils.correct_at p l) (seq 0 (length p)) = Ok mask /\
    length mask = length p /\
    forall i b row lab,
      mask !! i = Some b -> p !! i = Some row -> l !! i = Some lab ->
      (b = true <-> Utils.transform row = Ok [lab]).
Proof.
  intros Hlen Hrows.
  destruct (map_list_total (Utils.correct_at p l) (seq 0 (length p))) as [mask Hmask].
  { apply Forall_forall. intros i Hi%elem_of_seq.
    destruct (lookup_lt_is_Some_2 p i) as [row Hrow]; [lia|].
    destruct (lookup_lt_is_Some_2 l i) as [lab Hlab]; [lia|].
    destruct (correct_at_spec p l i row lab Hrow Hlab) as (b & Hb & _).
    { eapply Forall_lookup_1 in Hrows; done. }
    by exists b. }
  exists mask. split; [done|].
  apply map_list_Forall2 in Hmask.
  pose proof (Forall2_length _ _ _ Hmask) as Hl. rewrite length_seq in Hl.
  split; [done|]. intros i b row lab Hb Hrow Hlab.
  assert (Hi : seq 0 (length p) !! i = Some i).
  { apply lookup_seq. split; [done|]. by eapply lookup_lt_Some. }
  destruct (Forall2_lookup_l _ _ _ _ _ Hmask Hi) as (b' & Hb' & Hcorrect).
  rewrite Hb in Hb'. injection Hb' as <-.
  destruct (correct_at_spec p l i row lab Hrow Hlab) as (b' & Hb' & Hiff).
  { eapply Forall_lookup_1 in Hrows; done. }
  rewrite Hcorrect in Hb'. by injection Hb' as <-.
Qed.

(** X15: [country_accuracy] is the percentage of predictions whose first
    largest entry is at the position the label names.  It lies between 0
    and 100, is 100 exactly when every prediction is right and 0 exactly
    when none is.  Predictions and labels of different lengths are refused
    with [AssertionError], and no predictions at all give
    [ZeroDivisionError]. *)
Theorem country_accuracy_percentage (predictions : list (list Q)) (labels : list Z) :
  (length predictions <> length labels ->
     Utils.country_accuracy predictions labels = Throw (Builtin AssertionError)) /\
  (predictions = [] -> labels = [] ->
     Utils.country_accuracy predictions labels = Throw ZeroDivisionError) /\
  (length predictions = length labels -> predictions <> [] ->
   Forall (fun row => row <> []) predictions ->
   exists q,
     Utils.country_accuracy predictions labels = Return q /\
     (0 <= q <= 100)%Q /\
     ((q == 100)%Q <->
        Forall2 (fun row lab => Utils.transform row = Ok [lab]) predictions labels) /\
     ((q == 0)%Q <->
        Forall2 (fun row lab => Utils.transform row <> Ok [lab]) predictions labels)).
Proof.
  split; [|split].
  - intros Hne. unfold Utils.country_accuracy, Py.assert.
    by destruct (Nat.eqb_spec (length predictions) (length labels)).
  - by intros -> ->.
  - intros Hlen Hne Hrows.
    destruct (correct_bool_Ok predictions labels Hlen Hrows)
      as (mask & Hmask & Hml & Hspec).
    unfold Utils.country_accuracy, Py.assert.
    destruct (Nat.eqb_spec (length predictions) (length labels)) as [_|?]; [|done].
    simpl. rewrite Hmask. simpl. unfold Builtins.div.
    destruct (Nat.eqb_spec (length labels) 0) as [H0|Hpos].
    { destruct predictions; [done|]. simpl in Hlen. lia. }
    eexists. split; [done|].
    assert (Hml' : length labels = length mask) by lia.
    destruct (percentage_bounds (length (Builtins.select labels mask)) (length labels))
      as (Hb & H100 & H0); [apply select_length_le|lia|].
    split; [done|]. split.
    + rewrite H100, (select_all labels mask Hml').
      rewrite Forall2_same_length_lookup, Forall_lookup. split.
      * intros Hall. split; [done|]. intros i row lab Hrow Hlab.
        destruct (lookup_lt_is_Some_2 mask i) as [b Hb'].
        { rewrite Hml. by eapply lookup_lt_Some. }
        apply (Hspec i b row lab Hb' Hrow Hlab). by eapply Hall.
      * intros [_ Hall] i b Hb'.
        destruct (lookup_lt_is_Some_2 predictions i) as [row Hrow].
        { rewrite <- Hml. by eapply lookup_lt_Some. }
        destruct (lookup_lt_is_Some_2 labels i) as [lab Hlab].
        { rewrite Hml'. by eapply lookup_lt_Some. }
        apply (Hspec i b row lab Hb' Hrow Hlab). by eapply Hall.
    + rewrite H0, (select_none labels mask Hml').
      rewrite Forall2_same_length_lookup, Forall_lookup. split.
      * intros Hall. split; [done|]. intros i row lab Hrow Hlab Ht.
        destruct (lookup_lt_is_Some_2 mask i) as [b Hb'].
        { rewrite Hml. by eapply lookup_lt_Some. }
        apply (Hspec i b row lab Hb' Hrow Hlab) in Ht.
        specialize (Hall i b Hb'). congruence.
      * intros [_ Hall] i b Hb'.
        destruct (lookup_lt_is_Some_2 predictions i) as [row Hrow].
        { rewrite <- Hml. by eapply lookup_lt_Some. }
        destruct (lookup_lt_is_Some_2 labels i) as [lab Hlab].
        { rewrite Hml'. by eapply lookup_lt_Some. }
        destruct b; [|done]. exfalso. apply (Hall i row lab Hrow Hlab).
        by apply (Hspec i true row lab Hb' Hrow Hlab).
Qed.

Lemma country_accuracy_percentage_witness :
  length Data.scores = length Data.classes /\
  exists q,
    Utils.country_accuracy Data.scores Data.classes = Return q /\
    (0 <= q <= 100)%Q /\
    ((q == 100)%Q <->
       Forall2 (fun row lab => Utils.transform row = Ok [lab])
         Data.scores Data.classes) /\
    ((q == 0)%Q <->
       Forall2 (fun row lab => Utils.transform row <> Ok [lab])
         Data.scores Data.classes).
Proof.
  split; [reflexivity|].
  apply (proj2 (proj2 (country_accuracy_percentage Data.scores Data.classes))).
  - reflexivity.
  - discriminate.
  - repeat (constructor; [discriminate|]). constructor.
Defined.

(** ** [R_or_S] as a threshold *)



(** ** Models: agreement, shapes and errors *)

Import Model.

(** The two forward passes share their output. *)
Lemma forward_first_component self keep1 keep2 x :
  VanillaNN.forward self keep1 keep2 x =
    match MICPredictor.forward self keep1 keep2 x with
    | Ok (out, _) => Ok out
    | Raise e => Raise e
    end.
Proof.
  unfold VanillaNN.forward, MICPredictor.forward.
  destruct (apply_linear (VanillaNN.linear1 self) (transpose x)) as [y1|e]; simpl; [|done].
  destruct (dropout _ keep1 _) as [h1|e]; simpl; [|done].
  destruct (apply_linear (VanillaNN.linear2 self) h1) as [y2|e]; simpl; [|done].
  destruct (dropout _ keep2 _) as [h2|e]; simpl; [|done].
  destruct (apply_linear (VanillaNN.linear3 self) h2) as [y3|e]; simpl; [|done].
  by destruct (item00 y3).
Qed.

(** X17: [MICPredictor.forward] returns, as its first component, what
    [VanillaNN.forward] returns on the same network, input and dropout
    draws, and raises what it raises. *)
Theorem mic_predictor_agrees_with_vanilla self keep1 keep2 x :
  VanillaNN.forward self keep1 keep2 x =
    match MICPredictor.forward self keep1 keep2 x with
    | Ok (out, _) => Ok out
    | Raise e => Raise e
    end.
Proof. exact (forward_first_component self keep1 keep2 x). Qed.

Lemma transpose_column (xs : list Q) :
  xs <> [] -> transpose (Shapes.column xs) = [xs].
Proof.
  induction xs as [|x xs IH]; [done|]. intros _.
  destruct xs as [|x' xs]; [done|].
  change (transpose (Shapes.column (x :: x' :: xs)))
    with (zip_with cons [x] (transpose (Shapes.column (x' :: xs)))).
  by rewrite IH.
Qed.

Lemma apply_linear_row layer (row : list Q) n_in n_out :
  Shapes.linear_shape layer n_in n_out -> length row = n_in ->
  exists out, apply_linear layer [row] = Ok [out] /\ length out = n_out.
Proof.
  intros (Hin & Hw & Hb) Hrow. unfold apply_linear. simpl.
  rewrite Hrow, Hin, Nat.eqb_refl. simpl. eexists. split; [done|].
  rewrite length_zip_with. lia.
Qed.


Lemma dropout_row (p : Q) keep (row : list Q) :
  (0 <= p <= 1)%Q ->
  exists out, dropout p keep [row] = Ok [out] /\ length out = length row.
Proof.
  intros [H0 H1]. unfold dropout.
  assert (E0 : Py.lt p 0 = false) by (by apply lt_false_Qle).
  assert (E1 : Py.lt 1 p = false) by (by apply lt_false_Qle).
  rewrite E0, E1. simpl. eexists. split; [done|]. by rewrite length_imap.
Qed.


Lemma leaky_relu_row (row : list Q) :
  exists out, leaky_relu [row] = [out] /\ length out = length row.
Proof. eexists. split; [done|]. by rewrite length_map. Qed.

(** X18: on a network whose layers chain ([nn.Linear(n_feat, n_hid_1)],
    [nn.Linear(n_hid_1, n_hid_2)], [nn.Linear(n_hid_2, out_dim)] with
    [out_dim >= 1]) and a dropout rate within [0, 1], the forward pass of
    a feature column of [n_feat >= 1] entries returns, whatever the
    dropout draws are, and the activation [MICPredictor] returns with the
    output is one row of [n_hid_2] entries. *)
Theorem forward_returns self keep1 keep2 (xs : list Q) (n_hid_1 n_hid_2 out_dim : nat) :
  xs <> [] ->
  Shapes.linear_shape (VanillaNN.linear1 self) (length xs) n_hid_1 ->
  Shapes.linear_shape (VanillaNN.linear2 self) n_hid_1 n_hid_2 ->
  Shapes.linear_shape (VanillaNN.linear3 self) n_hid_2 out_dim ->
  0 < out_dim ->
  (0 <= VanillaNN.dropout_rate self <= 1)%Q ->
  exists out hidden,
    MICPredictor.forward self keep1 keep2 (Shapes.column xs) = Ok (out, [hidden]) /\
    VanillaNN.forward self keep1 keep2 (Shapes.column xs) = Ok out /\
    length hidden = n_hid_2.
Proof.
  intros Hxs H1 H2 H3 Hout Hp.
  rewrite forward_first_component.
  unfold MICPredictor.forward. rewrite transpose_column by done.
  destruct (apply_linear_row _ xs _ _ H1 eq_refl) as (y1 & -> & Hy1).
  cbn [mbind result_bind]. change (leaky_relu [y1]) with [map leaky y1].
  destruct (dropout_row _ keep1 (map leaky y1) Hp) as (h1 & -> & Hh1).
  rewrite length_map in Hh1. cbn [mbind result_bind].
  destruct (apply_linear_row _ h1 _ _ H2 ltac:(lia)) as (y2 & -> & Hy2).
  cbn [mbind result_bind]. change (leaky_relu [y2]) with [map leaky y2].
  destruct (dropout_row _ keep2 (map leaky y2) Hp) as (h2 & -> & Hh2).
  rewrite length_map in Hh2. cbn [mbind result_bind].
  destruct (apply_linear_row _ h2 _ _ H3 ltac:(lia)) as (y3 & -> & Hy3).
  cbn [mbind result_bind].
  destruct y3 as [|v y3]; [simpl in Hy3; lia|]. simpl.
  eexists _, h2. repeat split. lia.
Qed.

Lemma forward_returns_witness :
  exists out hidden,
    MICPredictor.forward Sample.net Sample.keep_all Sample.keep_all
      (Shapes.column [1; 2; 1 # 2]%Q) = Ok (out, [hidden]) /\
    VanillaNN.forward Sample.net Sample.keep_all Sample.keep_all
      (Shapes.column [1; 2; 1 # 2]%Q) = Ok out /\
    length hidden = 2.
Proof.
  apply (forward_returns Sample.net Sample.keep_all Sample.keep_all
           [1; 2; 1 # 2]%Q 2 2 1).
  - discriminate.
  - repeat split.
  - repeat split.
  - repeat split.
  - lia.
  - split; discriminate.
Defined.




(** ** Sample evaluations of the remaining functions *)

Example transform_samples :
  Utils.transform [0; 1; 0]%Q = Ok [1%Z] /\
  Utils.transform [1 # 2; 1 # 4; 1 # 2]%Q = Ok [0%Z] /\
  Utils.transform [] = Raise ValueError.
Proof. repeat split. Qed.

Example country_accuracy_samples :
  Utils.country_accuracy Data.scores Data.classes
    = Return (inject_Z 2 / inject_Z 3 * 100)%Q /\
  Utils.country_accuracy [] [] = Throw ZeroDivisionError /\
  Utils.country_accuracy [[1%Q]] [] = Throw (Builtin AssertionError) /\
  Utils.country_accuracy [[]] [0%Z] = Throw (Builtin ValueError).
Proof. repeat split. Qed.

Example load_labels_2_samples :
  Utils.load_labels_2 Data.torch_load Data.path_join "data" true false
    = Return ([1; 0]%Z, [1; 0; 2]%Z) /\
  Utils.load_labels_2 Data.torch_load Data.path_join "data" true true
    = Throw (Builtin ValueError) /\
  Utils.load_labels_2 Data.torch_load Data.path_join "data" false false
    = Throw (Builtin ValueError).
Proof. repeat split. Qed.

Example avg_gradient_samples :
  MetricLog.avg_gradient Sample.recorded (training_data_acc_grads Sample.recorded)
    = Return ((0 + (550 # 100) + (250 # 100)) / 2)%Q /\
  MetricLog.log_gradients Data.fresh 0 = Throw ZeroDivisionError.
Proof. split; reflexivity. Qed.
